(** * Amana Marketing Server: the request handlers of [src/server.js]

    A shallow embedding of the Express handlers of [server.js] and the
    properties of its specification.

    Modelling conventions.
    - A JavaScript string is a [string]; its characters are the code units
      0..255.  Strict equality [===] on strings is [String.eqb].
    - A Number is an exact integer [Z].  This is the code's Number on
      the safe integers ([safe_integer], at most 2^53 - 1 in absolute
      value): there an integer is its own double, [parseInt] returns the
      integer the digits denote and [toString] prints the plain decimal
      numeral.  Beyond them the code rounds to a double and prints long
      numbers in exponent form, which this model does not follow, and
      fractional numbers are not values of it; a property that is true of
      the code only within that range carries the bound as a hypothesis.
    - A value coming from, or going to, JSON is a [json] tree; an object is
      the list of its fields in insertion order.
    - A query parameter is absent ([None]) or a string; the body
      property [creativeIds] is absent or any JSON value.
    - [JSON.parse(fs.readFileSync(...))] is a lookup in a [store]: [None]
      stands for a file that is missing or malformed, in which case the
      call throws.
    - A handler returns an [outcome]: the response it sends, or [Uncaught]
      when an exception leaves the handler.
    - [simpleDecrypt] is imported from [./auth/decrypt.js]; [server.js]
      only calls it, and the handler that uses it takes it as a
      parameter. *)

From Stdlib Require Import ZArith List String Ascii Bool Lia Permutation.
Import ListNotations.

Local Open Scope string_scope.
Local Open Scope Z_scope.

(** ** JSON values *)

#[local] Set Warnings "-register-all".

Inductive json : Type :=
| JNull
| JBool (b : bool)
| JNum (n : Z)
| JStr (s : string)
| JArr (items : list json)
| JObj (fields : list (string * json)).

(** Property access [o.k] on a parsed object: [None] is [undefined]. *)
Fixpoint lookup (k : string) (fields : list (string * json)) : option json :=
  match fields with
  | [] => None
  | (k', v) :: rest => if String.eqb k k' then Some v else lookup k rest
  end.

Definition field (k : string) (v : json) : option json :=
  match v with
  | JObj fields => lookup k fields
  | _ => None
  end.

Definition keys (v : json) : list string :=
  match v with
  | JObj fields => map fst fields
  | _ => []
  end.

(** ToBoolean on a JSON value. *)
Definition truthy (v : json) : bool :=
  match v with
  | JNull => false
  | JBool b => b
  | JNum n => negb (n =? 0)
  | JStr s => negb (String.eqb s "")
  | JArr _ => true
  | JObj _ => true
  end.

(** [x || null], where [x] may be [undefined] (a property that is absent). *)
Definition or_null (x : option json) : json :=
  match x with
  | Some v => if truthy v then v else JNull
  | None => JNull
  end.

(** ** Number to string and string to number *)

Definition digit_char (d : Z) : ascii := ascii_of_nat (48 + Z.to_nat d).

(** The decimal digits of a positive number, most significant first;
    [fuel] bounds the number of digits produced. *)
Fixpoint digits_of (fuel : nat) (n : Z) (acc : string) : string :=
  match fuel with
  | O => acc
  | S fuel' =>
      let acc' := String (digit_char (n mod 10)) acc in
      if n / 10 =? 0 then acc' else digits_of fuel' (n / 10) acc'
  end.

(** Number.prototype.toString() on an integer: the plain decimal
    numeral, as the code prints a safe integer. *)
Definition toString (n : Z) : string :=
  if n <? 0
  then String "-" (digits_of (S (Z.to_nat (Z.log2 (- n)))) (- n) "")
  else digits_of (S (Z.to_nat (Z.log2 n))) n "".

Definition is_digit (c : ascii) : bool :=
  let n := nat_of_ascii c in (48 <=? n)%nat && (n <=? 57)%nat.

Definition digit_value (c : ascii) : Z := Z.of_nat (nat_of_ascii c) - 48.

(** StrWhiteSpaceChar, restricted to the code units below 256:
    TAB, LF, VT, FF, CR, SP and NBSP. *)
Definition is_whitespace (c : ascii) : bool :=
  let n := nat_of_ascii c in
  ((9 <=? n)%nat && (n <=? 13)%nat) || (n =? 32)%nat || (n =? 160)%nat.

Fixpoint trim_start (s : string) : string :=
  match s with
  | String c rest => if is_whitespace c then trim_start rest else s
  | EmptyString => s
  end.

(** The longest prefix of radix-10 digits, read as a number: [None] when
    it is empty, otherwise its value (starting from [acc]). *)
Fixpoint read_digits (s : string) (acc : option Z) : option Z :=
  match s with
  | String c rest =>
      if is_digit c
      then read_digits rest
             (Some (10 * match acc with Some a => a | None => 0 end
                    + digit_value c))
      else acc
  | EmptyString => acc
  end.

(** [parseInt(s, 10)]: [None] is NaN.  Leading white space is skipped, a
    sign is read, and the digits after it are read up to the first
    character that is not one.  The result is the integer the digits
    denote, which is what the code returns when that integer is safe. *)
Definition parseInt (s : string) : option Z :=
  match trim_start s with
  | String c rest as S =>
      if Ascii.eqb c "-" then option_map Z.opp (read_digits rest None)
      else if Ascii.eqb c "+" then read_digits rest None
      else read_digits S None
  | EmptyString => None
  end.

(** Array.prototype.join on strings. *)
Fixpoint join (sep : string) (l : list string) : string :=
  match l with
  | [] => ""
  | [x] => x
  | x :: rest => x ++ sep ++ join sep rest
  end.

(** ToString on a JSON value.  Inside an array, [null] prints as the
    empty string. *)
Fixpoint to_string (v : json) : string :=
  match v with
  | JNull => "null"
  | JBool true => "true"
  | JBool false => "false"
  | JNum n => toString n
  | JStr s => s
  | JArr items =>
      join "," (map (fun x => match x with
                              | JNull => ""
                              | _ => to_string x
                              end) items)
  | JObj _ => "[object Object]"
  end.

(** An element of an array, as [join] prints it. *)
Definition element_string (v : json) : string :=
  match v with
  | JNull => ""
  | _ => to_string v
  end.

(** ** The data model of [data/marketing-data.json] and the user files

    The records follow the entity shapes of the specification.  A property
    that a handler copies without looking at it is kept as the [json] value
    the file holds; the properties a handler compares have the type the
    specification gives them.  Every property listed is present, except
    the three the code itself tests for: [regional_performance],
    [creatives] and [a_b_test_variant]. *)

Module RegionalPerformance.
Record t : Type := mk {
  region : string;
  country : json;
  impressions : json;
  clicks : json;
  conversions : json;
  spend : json;
  revenue : json;
  ctr : json;
  conversion_rate : json;
  cpc : json;
  cpa : json;
  roas : json
}.

Definition to_json (rp : t) : json :=
  JObj [("region", JStr (region rp)); ("country", country rp);
        ("impressions", impressions rp); ("clicks", clicks rp);
        ("conversions", conversions rp); ("spend", spend rp);
        ("revenue", revenue rp); ("ctr", ctr rp);
        ("conversion_rate", conversion_rate rp); ("cpc", cpc rp);
        ("cpa", cpa rp); ("roas", roas rp)].
End RegionalPerformance.

Module Creative.
(** [a_b_test_variant] is optional: [None] is a creative without the
    property. *)
Record t : Type := mk {
  id : Z;
  name : json;
  format : json;
  url : json;
  performance_score : json;
  is_primary : json;
  impressions : json;
  clicks : json;
  ctr : json;
  a_b_test_variant : option json
}.

Definition to_json (cr : t) : json :=
  JObj ([("id", JNum (id cr)); ("name", name cr); ("format", format cr);
         ("url", url cr); ("performance_score", performance_score cr);
         ("is_primary", is_primary cr); ("impressions", impressions cr);
         ("clicks", clicks cr); ("ctr", ctr cr)]
        ++ match a_b_test_variant cr with
           | Some v => [("a_b_test_variant", v)]
           | None => []
           end).
End Creative.

Module Campaign.
(** The two collections are optional: the handlers test
    [campaign.regional_performance] and [campaign.creatives] before
    they use them. *)
Record t : Type := mk {
  id : Z;
  name : json;
  status : json;
  medium : json;
  regional_performance : option (list RegionalPerformance.t);
  creatives : option (list Creative.t)
}.

Definition to_json (c : t) : json :=
  JObj ([("id", JNum (id c)); ("name", name c); ("status", status c);
         ("medium", medium c)]
        ++ match regional_performance c with
           | Some rps =>
               [("regional_performance",
                 JArr (map RegionalPerformance.to_json rps))]
           | None => []
           end
        ++ match creatives c with
           | Some crs => [("creatives", JArr (map Creative.to_json crs))]
           | None => []
           end).
End Campaign.

Module MarketingData.
Record t : Type := mk { campaigns : list Campaign.t }.

Definition to_json (d : t) : json :=
  JObj [("campaigns", JArr (map Campaign.to_json (campaigns d)))].
End MarketingData.

Module User.
Record t : Type := mk {
  id : Z;
  username : string;
  password : string;
  email : json;
  role : string
}.
End User.

Module UsersData.
Record t : Type := mk { users : list User.t }.
End UsersData.

(** The three files under [data/], as [JSON.parse(fs.readFileSync(..))]
    finds them at the time of the request. *)
Record store : Type := mkStore {
  marketing_data_json : option MarketingData.t;
  users_json : option UsersData.t;
  encrypted_users_json : option UsersData.t
}.

(** ** Responses *)

Inductive outcome : Type :=
| Respond (status : Z) (body : json)
| Uncaught.

Definition status_of (o : outcome) : option Z :=
  match o with
  | Respond status _ => Some status
  | Uncaught => None
  end.

(** A field of the body of the response, when there is one. *)
Definition response_field (k : string) (o : outcome) : option json :=
  match o with
  | Respond _ body => field k body
  | Uncaught => None
  end.

(** [{ error: e, message: m }] *)
Definition error_body (e m : string) : json :=
  JObj [("error", JStr e); ("message", JStr m)].

(** ** GET /campaign-data *)

Definition get_campaign_data (st : store) (campaignId : option string)
  : outcome :=
  match campaignId with
  | Some (String _ _ as campaignId) =>
      match parseInt campaignId with
      | None =>
          Respond 400 (error_body "Invalid campaign ID"
                         "campaignId must be a valid number")
      | Some numericCampaignId =>
          match marketing_data_json st with
          | None => Uncaught
          | Some data =>
              match find (fun c => Campaign.id c =? numericCampaignId)
                         (MarketingData.campaigns data) with
              | None =>
                  Respond 404 (error_body "Campaign not found"
                                 "No campaign found with the provided ID")
              | Some campaign => Respond 200 (Campaign.to_json campaign)
              end
          end
      end
  | _ =>
      Respond 400 (error_body "Missing campaign ID"
                     "campaignId query parameter is required")
  end.

(** ** GET /region-data *)

(** The object pushed onto [regionalData]. *)
Definition region_row (campaign : Campaign.t)
    (regionPerformance : RegionalPerformance.t) : json :=
  JObj [("campaign", JStr (toString (Campaign.id campaign)));
        ("name", Campaign.name campaign);
        ("region", JStr (RegionalPerformance.region regionPerformance));
        ("country", RegionalPerformance.country regionPerformance);
        ("impressions", RegionalPerformance.impressions regionPerformance);
        ("clicks", RegionalPerformance.clicks regionPerformance);
        ("conversions", RegionalPerformance.conversions regionPerformance);
        ("spend", RegionalPerformance.spend regionPerformance);
        ("revenue", RegionalPerformance.revenue regionPerformance);
        ("ctr", RegionalPerformance.ctr regionPerformance);
        ("conversion_rate",
         RegionalPerformance.conversion_rate regionPerformance);
        ("cpc", RegionalPerformance.cpc regionPerformance);
        ("cpa", RegionalPerformance.cpa regionPerformance);
        ("roas", RegionalPerformance.roas regionPerformance)].

(** One turn of [data.campaigns.forEach]: [regionalData] after the
    callback has run on [campaign]. *)
Definition region_step (region : string) (regionalData : list json)
    (campaign : Campaign.t) : list json :=
  match Campaign.regional_performance campaign with
  | Some regional_performance =>
      match find (fun rp => String.eqb (RegionalPerformance.region rp) region)
                 regional_performance with
      | Some regionPerformance =>
          regionalData ++ [region_row campaign regionPerformance]
      | None => regionalData
      end
  | None => regionalData
  end.

Definition get_region_data (st : store) (region : option string) : outcome :=
  match region with
  | Some (String _ _ as region) =>
      match marketing_data_json st with
      | None => Uncaught
      | Some data =>
          let regionalData :=
            fold_left (region_step region) (MarketingData.campaigns data) []
          in
          match regionalData with
          | [] =>
              Respond 404 (error_body "No campaigns found"
                             ("No campaigns found for region: " ++ region))
          | _ :: _ => Respond 200 (JArr regionalData)
          end
      end
  | _ =>
      Respond 400 (error_body "Missing region"
                     "region query parameter is required")
  end.

(** ** POST /creative-data *)

(** [creativeIds.map(id => ...)]: [None] is the [null] the callback
    returns for an id that does not parse. *)
Definition numeric_id (id : json) : option Z := parseInt (to_string id).

(** [.filter(id => id !== null)] *)
Fixpoint drop_null (l : list (option Z)) : list Z :=
  match l with
  | [] => []
  | Some n :: rest => n :: drop_null rest
  | None :: rest => drop_null rest
  end.

(** [numericCreativeIds.includes(n)] *)
Definition includes (numericCreativeIds : list Z) (n : Z) : bool :=
  existsb (fun m => m =? n) numericCreativeIds.

(** The object pushed onto [creativePerformanceData]. *)
Definition creative_row (campaign : Campaign.t) (creative : Creative.t)
  : json :=
  JObj [("campaign_id", JNum (Campaign.id campaign));
        ("campaign_name", Campaign.name campaign);
        ("campaign_status", Campaign.status campaign);
        ("campaign_medium", Campaign.medium campaign);
        ("creative_id", JNum (Creative.id creative));
        ("creative_name", Creative.name creative);
        ("creative_format", Creative.format creative);
        ("creative_url", Creative.url creative);
        ("performance_score", Creative.performance_score creative);
        ("is_primary", Creative.is_primary creative);
        ("impressions", Creative.impressions creative);
        ("clicks", Creative.clicks creative);
        ("ctr", Creative.ctr creative);
        ("a_b_test_variant", or_null (Creative.a_b_test_variant creative))].

(** One turn of the inner [campaign.creatives.forEach]. *)
Definition creative_step (numericCreativeIds : list Z)
    (campaign : Campaign.t) (creativePerformanceData : list json)
    (creative : Creative.t) : list json :=
  if includes numericCreativeIds (Creative.id creative)
  then creativePerformanceData ++ [creative_row campaign creative]
  else creativePerformanceData.

(** One turn of the outer [data.campaigns.forEach]. *)
Definition campaign_step (numericCreativeIds : list Z)
    (creativePerformanceData : list json) (campaign : Campaign.t)
  : list json :=
  match Campaign.creatives campaign with
  | Some creatives =>
      fold_left (creative_step numericCreativeIds campaign) creatives
                creativePerformanceData
  | None => creativePerformanceData
  end.

Definition post_creative_data (st : store) (creativeIds : option json)
  : outcome :=
  match creativeIds with
  | Some (JArr []) =>
      Respond 400 (error_body "Empty creative IDs array"
                     "Please provide at least one creative ID")
  | Some (JArr creativeIds) =>
      let numericCreativeIds := drop_null (map numeric_id creativeIds) in
      match numericCreativeIds with
      | [] =>
          Respond 400 (error_body "Invalid creative IDs"
                         "All creative IDs must be valid numbers")
      | _ :: _ =>
          match marketing_data_json st with
          | None => Uncaught
          | Some data =>
              let creativePerformanceData :=
                fold_left (campaign_step numericCreativeIds)
                          (MarketingData.campaigns data) [] in
              match creativePerformanceData with
              | [] =>
                  Respond 404
                    (error_body "No creatives found"
                       ("No creatives found for the provided IDs: "
                        ++ join ", " (map element_string creativeIds)))
              | _ :: _ =>
                  Respond 200
                    (JObj [("message",
                            JStr "Creative performance data retrieved successfully");
                           ("requested_ids", JArr creativeIds);
                           ("found_creatives",
                            JNum (Z.of_nat (List.length creativePerformanceData)));
                           ("data", JArr creativePerformanceData)])
              end
          end
      end
  | _ =>
      Respond 400
        (JObj [("error", JStr "Missing or invalid creative IDs");
               ("message",
                JStr "creativeIds must be provided as an array in the request body");
               ("example",
                JObj [("creativeIds", JArr [JNum 101; JNum 102; JNum 201])])])
  end.

(** ** GET /simple-protected-data *)

(** [{ id: user.id, username: user.username, email: user.email,
       role: user.role }] *)
Definition user_summary (user : User.t) : json :=
  JObj [("id", JNum (User.id user));
        ("username", JStr (User.username user));
        ("email", User.email user);
        ("role", JStr (User.role user))].

(** The body sent from the [catch] block. *)
Definition internal_error : outcome :=
  Respond 500 (error_body "Internal server error"
                 "An error occurred while processing your request").

Definition get_simple_protected_data (st : store)
    (username password : option string) : outcome :=
  match username, password with
  | Some (String _ _ as username), Some (String _ _ as password) =>
      match users_json st with
      | None => internal_error
      | Some usersData =>
          match find (fun u => String.eqb (User.username u) username)
                     (UsersData.users usersData) with
          | None => Respond 404 (error_body "User not found" "User not found")
          | Some user =>
              if negb (String.eqb (User.password user) password)
              then Respond 401
                     (error_body "Invalid credentials" "User not found")
              else if String.eqb (User.role user) "admin"
              then
                match marketing_data_json st with
                | None => internal_error
                | Some marketingData =>
                    Respond 200
                      (JObj [("message",
                              JStr "Access granted - Admin user authenticated");
                             ("user", user_summary user);
                             ("data", MarketingData.to_json marketingData)])
                end
              else if String.eqb (User.role user) "user"
              then Respond 403
                     (JObj [("error", JStr "Access denied");
                            ("message",
                             JStr "User must be an admin to access this data.");
                            ("user", user_summary user)])
              else Respond 403 (error_body "Access denied" "User not found")
          end
      end
  | _, _ =>
      Respond 400
        (JObj [("error", JStr "Missing credentials");
               ("message",
                JStr "Username and password query parameters are required");
               ("example",
                JStr "/simple-protected-data?username=ahmed_hassan&password=ahmedadmin123")])
  end.

(** ** GET /encrypted-protected-data *)

Section Encrypted.

(** [simpleDecrypt] of [./auth/decrypt.js], the decode of the
    obfuscation codec. *)
Variable simpleDecrypt : string -> string.

Definition get_encrypted_protected_data (st : store)
    (username password : option string) : outcome :=
  match username, password with
  | Some (String _ _ as username), Some (String _ _ as password) =>
      match encrypted_users_json st with
      | None => internal_error
      | Some encryptedUsersData =>
          match find (fun u => String.eqb (User.username u) username)
                     (UsersData.users encryptedUsersData) with
          | None =>
              Respond 404 (error_body "User not found" "User not found")
          | Some user =>
              let decryptedStoredPassword :=
                simpleDecrypt (User.password user) in
              let decryptedProvidedPassword := simpleDecrypt password in
              if negb (String.eqb decryptedStoredPassword
                                  decryptedProvidedPassword)
              then Respond 401
                     (error_body "Invalid credentials" "User not found")
              else if String.eqb (User.role user) "admin"
              then
                match marketing_data_json st with
                | None => internal_error
                | Some marketingData =>
                    Respond 200
                      (JObj [("message",
                              JStr "Access granted - Admin user authenticated");
                             ("user", user_summary user);
                             ("data", MarketingData.to_json marketingData)])
                end
              else if String.eqb (User.role user) "user"
              then Respond 403
                     (JObj [("error", JStr "Access denied");
                            ("message",
                             JStr "User must be an admin to access this data.");
                            ("user", user_summary user)])
              else Respond 403 (error_body "Access denied" "User not found")
          end
      end
  | _, _ =>
      Respond 400
        (JObj [("error", JStr "Missing credentials");
               ("message",
                JStr "Username and password query parameters are required");
               ("example",
                JStr "/protected-data?username=ahmed_hassan&password=hotlkhktpu123")])
  end.

End Encrypted.

(** ** Vocabulary of the specification *)

(** The campaign has a regional-performance entry for [region]. *)
Definition has_region (region : string) (c : Campaign.t) : bool :=
  match Campaign.regional_performance c with
  | Some rps =>
      existsb (fun rp => String.eqb (RegionalPerformance.region rp) region) rps
  | None => false
  end.

(** [rp] is the first entry of [rps] whose region is [region]. *)
Definition first_entry_for (region : string)
    (rps : list RegionalPerformance.t) (rp : RegionalPerformance.t) : Prop :=
  exists before after,
    rps = (before ++ rp :: after)%list /\
    RegionalPerformance.region rp = region /\
    Forall (fun x => RegionalPerformance.region x <> region) before.

(** The field names of a row of the region endpoint. *)
Definition region_row_fields : list string :=
  ["campaign"; "name"; "region"; "country"; "impressions"; "clicks";
   "conversions"; "spend"; "revenue"; "ctr"; "conversion_rate"; "cpc";
   "cpa"; "roas"].

(** [row] is the row of campaign [c] for [region]: the projection of the
    first entry of [c] for that region. *)
Definition row_of (region : string) (c : Campaign.t) (row : json) : Prop :=
  exists rps rp,
    Campaign.regional_performance c = Some rps /\
    first_entry_for region rps rp /\
    row = region_row c rp.

(** [region] occurs in the regional performance of a campaign of [data]. *)
Definition region_present (data : MarketingData.t) (region : string) : Prop :=
  exists c rps rp,
    In c (MarketingData.campaigns data) /\
    Campaign.regional_performance c = Some rps /\
    In rp rps /\ RegionalPerformance.region rp = region.

(** Every creative of the dataset with the campaign that owns it, in
    dataset order. *)
Definition owned_creatives (data : MarketingData.t)
  : list (Campaign.t * Creative.t) :=
  flat_map (fun c => match Campaign.creatives c with
                     | Some crs => map (pair c) crs
                     | None => []
                     end)
           (MarketingData.campaigns data).





(** The creatives the request selects, each with its campaign. *)
Definition matched (data : MarketingData.t) (numericCreativeIds : list Z)
  : list (Campaign.t * Creative.t) :=
  filter (fun p => includes numericCreativeIds (Creative.id (snd p)))
         (owned_creatives data).


(** The three answers of the role decision, as the specification lists
    them: [admin] is granted the document, [user] is denied with an
    explanation, any other role is denied with the generic message. *)
Definition role_decision (st : store) (user : User.t) : outcome :=
  if String.eqb (User.role user) "admin" then
    match marketing_data_json st with
    | Some marketingData =>
        Respond 200
          (JObj [("message", JStr "Access granted - Admin user authenticated");
                 ("user", user_summary user);
                 ("data", MarketingData.to_json marketingData)])
    | None => internal_error
    end
  else if String.eqb (User.role user) "user" then
    Respond 403
      (JObj [("error", JStr "Access denied");
             ("message", JStr "User must be an admin to access this data.");
             ("user", user_summary user)])
  else Respond 403 (error_body "Access denied" "User not found").

(** The answer [o] is the one the three-way role decision gives [user]. *)
Definition three_way (st : store) (user : User.t) (o : outcome) : Prop :=
  (User.role user = "admin" ->
   forall marketingData,
     marketing_data_json st = Some marketingData ->
     o = Respond 200
           (JObj [("message",
                   JStr "Access granted - Admin user authenticated");
                  ("user", user_summary user);
                  ("data", MarketingData.to_json marketingData)])) /\
  (User.role user = "user" ->
   o = Respond 403
         (JObj [("error", JStr "Access denied");
                ("message",
                 JStr "User must be an admin to access this data.");
                ("user", user_summary user)]) /\
   response_field "data" o = None) /\
  (User.role user <> "admin" -> User.role user <> "user" ->
   o = Respond 403 (error_body "Access denied" "User not found") /\
   response_field "data" o = None).

(** The user record the lookup by [username] finds. *)
Definition find_user (username : string) (usersData : UsersData.t)
  : option User.t :=
  find (fun u => String.eqb (User.username u) username)
       (UsersData.users usersData).

(** The value of a string of decimal digits, by positional weight. *)
Fixpoint decimal_value (ds : string) : Z :=
  match ds with
  | String d rest =>
      digit_value d * 10 ^ Z.of_nat (String.length rest) + decimal_value rest
  | EmptyString => 0
  end.

Fixpoint all_digits (ds : string) : bool :=
  match ds with
  | String d rest => is_digit d && all_digits rest
  | EmptyString => true
  end.

Fixpoint all_whitespace (ws : string) : bool :=
  match ws with
  | String c rest => is_whitespace c && all_whitespace rest
  | EmptyString => true
  end.

(** The whole string is a decimal integer: an optional sign and one or
    more digits, nothing else. *)
Definition integer_literal (s : string) : bool :=
  match s with
  | String c rest =>
      if Ascii.eqb c "-" || Ascii.eqb c "+"
      then negb (String.eqb rest "") && all_digits rest
      else all_digits s
  | EmptyString => false
  end.

(** An optional sign, and the factor it stands for. *)
Inductive sign : string -> Z -> Prop :=
| sign_none : sign "" 1
| sign_plus : sign "+" 1
| sign_minus : sign "-" (-1).

(** The string does not go on with a digit. *)
Definition ends_digits (rest : string) : Prop :=
  match rest with
  | String c _ => is_digit c = false
  | EmptyString => True
  end.

(** A value is numeric, under the base-10 integer rule, when after
    optional white space it starts with an optionally signed decimal
    digit. *)
Definition numeric (s : string) : Prop :=
  exists ws sg k d rest,
    s = ws ++ sg ++ String d rest /\
    all_whitespace ws = true /\ sign sg k /\ is_digit d = true.

(** ** A small dataset for closed examples *)

Module Sample.

Definition dubai : RegionalPerformance.t :=
  RegionalPerformance.mk "Dubai" (JStr "UAE") (JNum 120000) (JNum 3400)
    (JNum 210) (JNum 5200) (JNum 18900) (JNum 3) (JNum 6) (JNum 2)
    (JNum 25) (JNum 4).

Definition abu_dhabi : RegionalPerformance.t :=
  RegionalPerformance.mk "Abu Dhabi" (JStr "UAE") (JNum 80000) (JNum 2100)
    (JNum 130) (JNum 3100) (JNum 9800) (JNum 3) (JNum 6) (JNum 1)
    (JNum 24) (JNum 3).

Definition riyadh : RegionalPerformance.t :=
  RegionalPerformance.mk "Riyadh" (JStr "Saudi Arabia") (JNum 95000)
    (JNum 2500) (JNum 160) (JNum 4000) (JNum 12000) (JNum 3) (JNum 6)
    (JNum 2) (JNum 25) (JNum 3).

(** A second entry for Dubai in the same campaign. *)
Definition dubai_again : RegionalPerformance.t :=
  RegionalPerformance.mk "Dubai" (JStr "UAE") (JNum 1) (JNum 1) (JNum 1)
    (JNum 1) (JNum 1) (JNum 1) (JNum 1) (JNum 1) (JNum 1) (JNum 1).

(** An entry whose region is the empty string. *)
Definition unnamed_region : RegionalPerformance.t :=
  RegionalPerformance.mk "" (JStr "UAE") (JNum 1) (JNum 1) (JNum 1)
    (JNum 1) (JNum 1) (JNum 1) (JNum 1) (JNum 1) (JNum 1) (JNum 1).

Definition creative101 : Creative.t :=
  Creative.mk 101 (JStr "Hero banner") (JStr "Image")
    (JStr "https://example.com/101.jpg") (JNum 8) (JBool true)
    (JNum 45000) (JNum 1300) (JNum 3) (Some (JStr "A")).

Definition creative102 : Creative.t :=
  Creative.mk 102 (JStr "Story video") (JStr "Video")
    (JStr "https://example.com/102.mp4") (JNum 7) (JBool false)
    (JNum 30000) (JNum 900) (JNum 3) None.

Definition creative201 : Creative.t :=
  Creative.mk 201 (JStr "Carousel") (JStr "Carousel")
    (JStr "https://example.com/201.jpg") (JNum 9) (JBool true)
    (JNum 52000) (JNum 1700) (JNum 3) (Some (JStr "")).

Definition campaign1 : Campaign.t :=
  Campaign.mk 1 (JStr "Ramadan Collection") (JStr "Active")
    (JStr "Instagram") (Some [dubai; abu_dhabi])
    (Some [creative101; creative102]).

Definition campaign2 : Campaign.t :=
  Campaign.mk 2 (JStr "Summer Sale") (JStr "Paused") (JStr "Facebook")
    (Some [riyadh; dubai; dubai_again]) (Some [creative201]).

(** A campaign with neither collection. *)
Definition campaign3 : Campaign.t :=
  Campaign.mk 3 (JStr "Draft") (JStr "Draft") (JStr "Google") None None.

Definition campaign4 : Campaign.t :=
  Campaign.mk 4 (JStr "Back to school") (JStr "Active") (JStr "TikTok")
    (Some [unnamed_region]) (Some []).

Definition marketing : MarketingData.t :=
  MarketingData.mk [campaign1; campaign2; campaign3; campaign4].

Definition ahmed : User.t :=
  User.mk 1 "ahmed_hassan" "ahmedadmin123" (JStr "ahmed@example.com")
    "admin".

Definition omar : User.t :=
  User.mk 2 "omar_mahmoud" "omar789pass" (JStr "omar@example.com") "user".

Definition layla : User.t :=
  User.mk 3 "layla_said" "layla456" (JStr "layla@example.com") "guest".

(** The same accounts with the passwords as the comments of
    [server.js] quote them for the encrypted route. *)
Definition ahmed_enc : User.t :=
  User.mk 1 "ahmed_hassan" "hotlkhktpu123" (JStr "ahmed@example.com")
    "admin".

Definition omar_enc : User.t :=
  User.mk 2 "omar_mahmoud" "vthy789whzz" (JStr "omar@example.com") "user".

Definition layla_enc : User.t :=
  User.mk 3 "layla_said" "shfsh456" (JStr "layla@example.com") "guest".

Definition files : store :=
  mkStore (Some marketing)
          (Some (UsersData.mk [ahmed; omar; layla]))
          (Some (UsersData.mk [ahmed_enc; omar_enc; layla_enc])).

(** A decoder to put in the place of [simpleDecrypt] in closed
    examples: lower-case letters go back seven places in the alphabet,
    every other character stays.  It maps the passwords quoted in the
    comments of [server.js] to each other; it is not the code of
    [decrypt.js]. *)
Definition shift_back (c : ascii) : ascii :=
  let n := nat_of_ascii c in
  if ((97 <=? n) && (n <=? 122))%nat
  then ascii_of_nat (97 + (n - 97 + 19) mod 26)
  else c.

Fixpoint decoder (s : string) : string :=
  match s with
  | String c rest => String (shift_back c) (decoder rest)
  | EmptyString => EmptyString
  end.

End Sample.

(** ** The range in which numbers are exact *)

(** Number.isSafeInteger, on an integer. *)
Definition safe_integer (n : Z) : Prop :=
  - 9007199254740991 <= n <= 9007199254740991.

(** Every requested id that parses, parses to a safe integer. *)
Definition safe_request (creativeIds : list json) : Prop :=
  Forall (fun id => forall n, numeric_id id = Some n -> safe_integer n)
         creativeIds.

(** The three answers of the role decision with every field of the body
    written out: [o] is the answer for [user]. *)
Definition role_paths (st : store) (user : User.t) (o : outcome) : Prop :=
  (User.role user = "admin" ->
   forall marketingData,
     marketing_data_json st = Some marketingData ->
     o = Respond 200
           (JObj [("message",
                   JStr "Access granted - Admin user authenticated");
                  ("user",
                   JObj [("id", JNum (User.id user));
                         ("username", JStr (User.username user));
                         ("email", User.email user);
                         ("role", JStr (User.role user))]);
                  ("data", MarketingData.to_json marketingData)])) /\
  (User.role user = "user" ->
   o = Respond 403
         (JObj [("error", JStr "Access denied");
                ("message",
                 JStr "User must be an admin to access this data.");
                ("user",
                 JObj [("id", JNum (User.id user));
                       ("username", JStr (User.username user));
                       ("email", User.email user);
                       ("role", JStr (User.role user))])]) /\
   response_field "data" o = None) /\
  (User.role user <> "admin" -> User.role user <> "user" ->
   o = Respond 403
         (JObj [("error", JStr "Access denied");
                ("message", JStr "User not found")]) /\
   response_field "data" o = None).


(** ** Vocabulary of the further properties *)

(** A query parameter is there and is not the empty string: what
    [if (!x)] lets through. *)
Definition supplied (q : option string) : bool :=
  match q with
  | Some (String _ _) => true
  | _ => false
  end.

(** The store in which the plain-text user file is the obfuscated one. *)
Definition obfuscated_as_plain (st : store) : store :=
  mkStore (marketing_data_json st) (encrypted_users_json st)
          (encrypted_users_json st).

(** [c] is the first campaign of [cs] whose id is [n]. *)
Definition first_with_id (n : Z) (cs : list Campaign.t) (c : Campaign.t)
  : Prop :=
  exists before after,
    cs = (before ++ c :: after)%list /\
    Campaign.id c = n /\
    Forall (fun x => Campaign.id x <> n) before.


(** The statuses a credential endpoint can answer with. *)
Definition credential_statuses : list Z := [200; 400; 401; 403; 404; 500].

(** The procedure the two credential handlers share: they differ in the
    user file they read, in the test [accepts user password] they put the
    supplied password to, and in the example they quote when a
    credential is missing. *)
Definition credential_answer (users : option UsersData.t)
    (accepts : User.t -> string -> bool) (example : string) (st : store)
    (username password : option string) : outcome :=
  match username, password with
  | Some (String _ _ as username), Some (String _ _ as password) =>
      match users with
      | None => internal_error
      | Some usersData =>
          match find_user username usersData with
          | None => Respond 404 (error_body "User not found" "User not found")
          | Some user =>
              if accepts user password
              then role_decision st user
              else Respond 401
                     (error_body "Invalid credentials" "User not found")
          end
      end
  | _, _ =>
      Respond 400
        (JObj [("error", JStr "Missing credentials");
               ("message",
                JStr "Username and password query parameters are required");
               ("example", JStr example)])
  end.

(** What each status of a credential endpoint says, both credentials
    being supplied: [users] is the user file as read, [accepted] the
    outcome of the password test on a user. *)
Definition decision_table (users : option UsersData.t)
    (accepted : User.t -> bool) (st : store) (username : string)
    (o : outcome) : Prop :=
  (status_of o = Some 404 <->
   exists usersData,
     users = Some usersData /\ find_user username usersData = None) /\
  (status_of o = Some 401 <->
   exists usersData user,
     users = Some usersData /\ find_user username usersData = Some user /\
     accepted user = false) /\
  (status_of o = Some 403 <->
   exists usersData user,
     users = Some usersData /\ find_user username usersData = Some user /\
     accepted user = true /\ User.role user <> "admin") /\
  (status_of o = Some 200 <->
   exists usersData user marketingData,
     users = Some usersData /\ find_user username usersData = Some user /\
     accepted user = true /\ User.role user = "admin" /\
     marketing_data_json st = Some marketingData) /\
  (status_of o = Some 500 <->
   users = None \/
   exists usersData user,
     users = Some usersData /\ find_user username usersData = Some user /\
     accepted user = true /\ User.role user = "admin" /\
     marketing_data_json st = None).

(** * Properties *)

(** ** Reading numbers *)

Example toString_2024 : toString 2024 = "2024".
Proof. reflexivity. Qed.

Example toString_neg : toString (-305) = "-305".
Proof. reflexivity. Qed.

Example toString_0 : toString 0 = "0".
Proof. reflexivity. Qed.

Example parseInt_2abc : parseInt "2abc" = Some 2.
Proof. reflexivity. Qed.

Example parseInt_abc : parseInt "abc" = None.
Proof. reflexivity. Qed.

Example parseInt_signed : parseInt "  -17px" = Some (-17).
Proof. reflexivity. Qed.

Example parseInt_sign_only : parseInt "-" = None.
Proof. reflexivity. Qed.

Example parseInt_array : numeric_id (JArr [JStr "7"; JNum 8]) = Some 7.
Proof. reflexivity. Qed.

Example decoder_admin : Sample.decoder "hotlkhktpu123" = "ahmedadmin123".
Proof. reflexivity. Qed.

Example decoder_user : Sample.decoder "vthy789whzz" = "omar789pass".
Proof. reflexivity. Qed.

Lemma is_digit_range (c : ascii) :
  is_digit c = true -> (48 <= nat_of_ascii c <= 57)%nat.
Proof.
  unfold is_digit; intros H.
  apply andb_true_iff in H as [H1 H2].
  apply Nat.leb_le in H1, H2; lia.
Qed.

Lemma is_digit_not_minus (c : ascii) :
  is_digit c = true -> Ascii.eqb c "-" = false.
Proof.
  intros H; apply is_digit_range in H.
  destruct (Ascii.eqb_spec c "-") as [->|]; [|reflexivity].
  change (nat_of_ascii "-") with 45%nat in H; lia.
Qed.

Lemma is_digit_not_plus (c : ascii) :
  is_digit c = true -> Ascii.eqb c "+" = false.
Proof.
  intros H; apply is_digit_range in H.
  destruct (Ascii.eqb_spec c "+") as [->|]; [|reflexivity].
  change (nat_of_ascii "+") with 43%nat in H; lia.
Qed.

Lemma is_digit_not_whitespace (c : ascii) :
  is_digit c = true -> is_whitespace c = false.
Proof.
  intros H; apply is_digit_range in H; unfold is_whitespace.
  repeat (apply orb_false_iff; split).
  - apply andb_false_iff; right; apply Nat.leb_gt; lia.
  - apply Nat.eqb_neq; lia.
  - apply Nat.eqb_neq; lia.
Qed.

Lemma minus_not_whitespace : is_whitespace "-" = false.
Proof. reflexivity. Qed.

Lemma plus_not_whitespace : is_whitespace "+" = false.
Proof. reflexivity. Qed.

Lemma read_digits_stop (rest : string) (acc : option Z) :
  ends_digits rest -> read_digits rest acc = acc.
Proof.
  destruct rest as [|c rest]; simpl; [reflexivity|].
  intros ->; reflexivity.
Qed.

(** Reading a run of digits that ends at [rest] continues the number
    read so far. *)
Lemma read_digits_run (ds rest : string) :
  all_digits ds = true -> ends_digits rest ->
  forall a,
    read_digits (ds ++ rest) (Some a)
    = Some (a * 10 ^ Z.of_nat (String.length ds) + decimal_value ds).
Proof.
  intros Hds Hrest; induction ds as [|d ds IH]; intros a.
  - simpl; rewrite read_digits_stop by assumption; f_equal; lia.
  - simpl in Hds; apply andb_true_iff in Hds as [Hd Hds].
    cbn [append read_digits]; rewrite Hd, (IH Hds).
    cbn [String.length decimal_value]; f_equal.
    rewrite Nat2Z.inj_succ, Z.pow_succ_r by lia; ring.
Qed.

Lemma read_digits_number (d : ascii) (ds rest : string) :
  is_digit d = true -> all_digits ds = true -> ends_digits rest ->
  read_digits (String d ds ++ rest) None
  = Some (decimal_value (String d ds)).
Proof.
  intros Hd Hds Hrest; cbn [append read_digits]; rewrite Hd.
  rewrite read_digits_run by assumption.
  cbn [decimal_value]; f_equal; ring.
Qed.

Lemma read_digits_acc_some (s : string) (a : Z) :
  exists n, read_digits s (Some a) = Some n.
Proof.
  revert a; induction s as [|c s IH]; intros a; simpl; [eauto|].
  destruct (is_digit c); eauto.
Qed.

(** Nothing is read exactly when the string does not start with a digit. *)
Lemma read_digits_some_iff (s : string) :
  (exists n, read_digits s None = Some n) <->
  (exists d rest, s = String d rest /\ is_digit d = true).
Proof.
  split.
  - intros [n H]; destruct s as [|c s]; [discriminate|].
    simpl in H; destruct (is_digit c) eqn:Hc; [eauto | discriminate].
  - intros (d & rest & -> & Hd); simpl; rewrite Hd.
    apply read_digits_acc_some.
Qed.

Lemma trim_start_app (ws t : string) :
  all_whitespace ws = true ->
  match t with String c _ => is_whitespace c = false | EmptyString => True end ->
  trim_start (ws ++ t) = t.
Proof.
  intros Hws Ht; induction ws as [|c ws IH].
  - destruct t as [|c t]; simpl; [reflexivity | now rewrite Ht].
  - simpl in Hws; apply andb_true_iff in Hws as [Hc Hws].
    simpl; rewrite Hc; auto.
Qed.

Lemma trim_start_split (s : string) :
  exists ws, s = ws ++ trim_start s /\ all_whitespace ws = true.
Proof.
  induction s as [|c s (ws & Hs & Hws)].
  - exists ""; auto.
  - simpl; destruct (is_whitespace c) eqn:Hc.
    + exists (String c ws); simpl; rewrite Hc, <- Hs; auto.
    + exists ""; auto.
Qed.

(** The longest run of digits at the head of a string. *)
Lemma digit_prefix (t : string) :
  exists ds rest, t = ds ++ rest /\ all_digits ds = true /\ ends_digits rest.
Proof.
  induction t as [|c t (ds & rest & Ht & Hds & Hrest)].
  - exists "", ""; simpl; auto.
  - destruct (is_digit c) eqn:Hc.
    + exists (String c ds), rest; simpl; rewrite Hc, <- Ht; auto.
    + exists "", (String c t); simpl; auto.
Qed.

(** [parseInt] on white space, a sign and a run of digits. *)
Lemma parseInt_number (ws sg : string) (k : Z) (d : ascii) (ds rest : string) :
  all_whitespace ws = true -> sign sg k ->
  is_digit d = true -> all_digits ds = true -> ends_digits rest ->
  parseInt (ws ++ sg ++ String d ds ++ rest)
  = Some (k * decimal_value (String d ds)).
Proof.
  intros Hws Hsg Hd Hds Hrest; unfold parseInt.
  pose proof (read_digits_number d ds rest Hd Hds Hrest) as Hread.
  cbn [append] in Hread.
  destruct Hsg; cbn [append].
  - rewrite trim_start_app by (auto; now apply is_digit_not_whitespace).
    rewrite is_digit_not_minus, is_digit_not_plus by assumption.
    rewrite Hread; f_equal; lia.
  - rewrite trim_start_app by (auto; apply plus_not_whitespace).
    cbn [Ascii.eqb Bool.eqb]; rewrite Hread; f_equal; lia.
  - rewrite trim_start_app by (auto; apply minus_not_whitespace).
    cbn [Ascii.eqb Bool.eqb]; rewrite Hread; cbn [option_map]; f_equal; lia.
Qed.

(** A value parses exactly when it is numeric. *)
Lemma parseInt_some_iff (s : string) :
  (exists n, parseInt s = Some n) <-> numeric s.
Proof.
  split.
  - intros [n H]; unfold parseInt in H.
    destruct (trim_start_split s) as (ws & Hs & Hws).
    destruct (trim_start s) as [|c t] eqn:Ht; [discriminate|].
    destruct (Ascii.eqb_spec c "-") as [->|Hm].
    { destruct (read_digits t None) as [m|] eqn:Hr; [|discriminate].
      destruct (proj1 (read_digits_some_iff t) (ex_intro _ m Hr))
        as (d & rest & -> & Hd).
      exists ws, "-", (-1), d, rest; repeat split; auto using sign. }
    destruct (Ascii.eqb_spec c "+") as [->|Hp].
    { destruct (proj1 (read_digits_some_iff t) (ex_intro _ n H))
        as (d & rest & -> & Hd).
      exists ws, "+", 1, d, rest; repeat split; auto using sign. }
    destruct (proj1 (read_digits_some_iff _) (ex_intro _ n H))
      as (d & rest & Heq & Hd).
    exists ws, "", 1, d, rest; rewrite <- Heq; repeat split; auto using sign.
  - intros (ws & sg & k & d & t & -> & Hws & Hsg & Hd).
    destruct (digit_prefix t) as (ds & rest & -> & Hds & Hrest).
    exists (k * decimal_value (String d ds)).
    now apply (parseInt_number ws sg k d ds rest).
Qed.

Lemma parseInt_none_iff (s : string) : parseInt s = None <-> ~ numeric s.
Proof.
  rewrite <- parseInt_some_iff; split.
  - intros H [n Hn]; congruence.
  - intros H; destruct (parseInt s) as [n|]; [exfalso; eauto | reflexivity].
Qed.

Lemma parseInt_nonempty (s : string) (n : Z) :
  parseInt s = Some n -> s <> "".
Proof. intros H ->; discriminate. Qed.

(** ** Printing numbers *)

Lemma digit_char_spec (d : Z) :
  0 <= d <= 9 ->
  is_digit (digit_char d) = true /\ digit_value (digit_char d) = d.
Proof.
  intros H.
  assert (Hd : d = 0 \/ d = 1 \/ d = 2 \/ d = 3 \/ d = 4 \/ d = 5 \/
               d = 6 \/ d = 7 \/ d = 8 \/ d = 9) by lia.
  repeat (destruct Hd as [->|Hd]; [split; reflexivity|]).
  subst; split; reflexivity.
Qed.

Lemma all_digits_snoc (ds : string) (x : ascii) :
  all_digits ds = true -> is_digit x = true ->
  all_digits (ds ++ String x "") = true.
Proof.
  intros Hds Hx; induction ds as [|d ds IH]; simpl.
  - now rewrite Hx.
  - simpl in Hds; apply andb_true_iff in Hds as [-> Hds]; simpl; auto.
Qed.

Lemma length_snoc (ds : string) (x : ascii) :
  String.length (ds ++ String x "") = S (String.length ds).
Proof. induction ds; simpl; congruence. Qed.

Lemma decimal_value_snoc (ds : string) (x : ascii) :
  decimal_value (ds ++ String x "") = 10 * decimal_value ds + digit_value x.
Proof.
  induction ds as [|d ds IH]; cbn [append decimal_value].
  - cbn [String.length]; lia.
  - rewrite IH, length_snoc, Nat2Z.inj_succ, Z.pow_succ_r by lia; ring.
Qed.

Lemma append_snoc (ds : string) (x : ascii) (tail : string) :
  ds ++ String x tail = (ds ++ String x "") ++ tail.
Proof. induction ds; simpl; congruence. Qed.

(** [digits_of] puts the decimal numeral of [n] in front of [tail]. *)
Lemma digits_of_spec (fuel : nat) :
  forall n tail,
    (0 < fuel)%nat -> 0 <= n < 2 ^ Z.of_nat fuel ->
    exists ds,
      digits_of fuel n tail = ds ++ tail /\ ds <> "" /\
      all_digits ds = true /\ decimal_value ds = n.
Proof.
  induction fuel as [|fuel IH]; intros n tail Hfuel Hn.
  - lia.
  - cbn [digits_of].
    assert (Hmod : 0 <= n mod 10 <= 9) by (pose proof (Z.mod_pos_bound n 10); lia).
    destruct (digit_char_spec _ Hmod) as [Hdig Hval].
    destruct (Z.eqb_spec (n / 10) 0) as [Hq|Hq].
    + exists (String (digit_char (n mod 10)) "").
      cbn [append all_digits decimal_value String.length].
      rewrite Hdig, Hval; change (10 ^ Z.of_nat 0) with 1.
      repeat split; try discriminate.
      pose proof (Z.div_mod n 10); lia.
    + assert (Hpow : 2 ^ Z.of_nat (S fuel) = 2 * 2 ^ Z.of_nat fuel)
        by (rewrite Nat2Z.inj_succ, Z.pow_succ_r; lia).
      assert (Hq' : 0 <= n / 10 < 2 ^ Z.of_nat fuel).
      { split; [apply Z.div_pos; lia|].
        apply Z.div_lt_upper_bound; [lia|].
        pose proof (Z.pow_pos_nonneg 2 (Z.of_nat fuel)); lia. }
      assert (Hfuel' : (0 < fuel)%nat).
      { destruct fuel; [|lia].
        change (2 ^ Z.of_nat 0) with 1 in Hq'; lia. }
      destruct (IH (n / 10) (String (digit_char (n mod 10)) tail) Hfuel' Hq')
        as (ds & Heq & Hne & Hds & Hv).
      exists (ds ++ String (digit_char (n mod 10)) "").
      rewrite Heq, decimal_value_snoc, Hv, Hval.
      repeat split.
      * apply append_snoc.
      * destruct ds; simpl; discriminate.
      * now apply all_digits_snoc.
      * pose proof (Z.div_mod n 10); lia.
Qed.

Lemma digits_of_log2 (n : Z) :
  0 <= n ->
  exists d ds,
    digits_of (S (Z.to_nat (Z.log2 n))) n "" = String d ds /\
    is_digit d = true /\ all_digits ds = true /\
    decimal_value (String d ds) = n.
Proof.
  intros Hn.
  assert (Hb : 0 <= n < 2 ^ Z.of_nat (S (Z.to_nat (Z.log2 n)))).
  { split; [assumption|].
    rewrite Nat2Z.inj_succ, Z2Nat.id by apply Z.log2_nonneg.
    destruct (Z.eq_dec n 0) as [->|Hz]; [reflexivity|].
    apply Z.log2_spec; lia. }
  destruct (digits_of_spec _ n "" (Nat.lt_0_succ _) Hb)
    as (ds & Heq & Hne & Hds & Hv).
  destruct ds as [|d ds]; [congruence|].
  simpl in Hds; apply andb_true_iff in Hds as [Hd Hds].
  exists d, ds; repeat split; auto.
  rewrite Heq; simpl; f_equal.
  clear; induction ds; simpl; congruence.
Qed.

(** The numeral of an integer reads back as that integer. *)
Lemma parseInt_toString (n : Z) : parseInt (toString n) = Some n.
Proof.
  unfold toString; destruct (Z.ltb_spec n 0) as [Hneg|Hpos].
  - destruct (digits_of_log2 (- n)) as (d & ds & -> & Hd & Hds & Hv); [lia|].
    pose proof (parseInt_number "" "-" (-1) d ds "" eq_refl sign_minus
                  Hd Hds I) as H.
    cbn [append] in H.
    replace (ds ++ "") with ds in H
      by (clear; induction ds; simpl; congruence).
    rewrite H, Hv; f_equal; lia.
  - destruct (digits_of_log2 n) as (d & ds & -> & Hd & Hds & Hv); [lia|].
    pose proof (parseInt_number "" "" 1 d ds "" eq_refl sign_none
                  Hd Hds I) as H.
    cbn [append] in H.
    replace (ds ++ "") with ds in H
      by (clear; induction ds; simpl; congruence).
    rewrite H, Hv; f_equal; lia.
Qed.

(** ** GET /campaign-data *)

Section CampaignData.

Variable st : store.

(** What the handler does once the id has parsed and the file is read. *)
Lemma get_campaign_data_parsed (data : MarketingData.t)
    (campaignId : string) (n : Z) :
  marketing_data_json st = Some data ->
  parseInt campaignId = Some n ->
  get_campaign_data st (Some campaignId)
  = match find (fun c => Campaign.id c =? n)
               (MarketingData.campaigns data) with
    | None =>
        Respond 404 (error_body "Campaign not found"
                       "No campaign found with the provided ID")
    | Some campaign => Respond 200 (Campaign.to_json campaign)
    end.
Proof.
  intros Hdata Hparse; unfold get_campaign_data.
  destruct campaignId as [|c s]; [discriminate|].
  now rewrite Hparse, Hdata.
Qed.

Lemma get_campaign_data_not_numeric (campaignId : string) :
  ~ numeric campaignId ->
  get_campaign_data st (Some campaignId)
  = Respond 400
      (if String.eqb campaignId ""
       then error_body "Missing campaign ID"
              "campaignId query parameter is required"
       else error_body "Invalid campaign ID"
              "campaignId must be a valid number").
Proof.
  intros H; apply parseInt_none_iff in H; unfold get_campaign_data.
  destruct campaignId as [|c s]; [reflexivity|].
  now rewrite H.
Qed.

End CampaignData.

Lemma find_id_some (cs : list Campaign.t) (n : Z) :
  In n (map Campaign.id cs) ->
  exists c,
    find (fun c => Campaign.id c =? n) cs = Some c /\
    In c cs /\ Campaign.id c = n.
Proof.
  induction cs as [|c cs IH]; simpl; [contradiction|].
  intros Hin; destruct (Z.eqb_spec (Campaign.id c) n) as [Heq|Hne].
  - exists c; auto.
  - destruct Hin as [Heq|Hin]; [contradiction|].
    destruct (IH Hin) as (c' & Hfind & Hc' & Hid); eauto.
Qed.

Lemma find_id_none (cs : list Campaign.t) (n : Z) :
  ~ In n (map Campaign.id cs) ->
  find (fun c => Campaign.id c =? n) cs = None.
Proof.
  induction cs as [|c cs IH]; simpl; [reflexivity|].
  intros Hnin; destruct (Z.eqb_spec (Campaign.id c) n) as [Heq|Hne].
  - exfalso; auto.
  - apply IH; auto.
Qed.

Lemma NoDup_map_injective {A B : Type} (f : A -> B) (l : list A) :
  NoDup (map f l) ->
  forall a b, In a l -> In b l -> f a = f b -> a = b.
Proof.
  induction l as [|x l IH]; simpl; [contradiction|].
  intros Hnd a b Ha Hb Hf; inversion Hnd as [|? ? Hx Hl]; subst.
  destruct Ha as [->|Ha], Hb as [->|Hb]; auto.
  - exfalso; apply Hx; rewrite Hf; now apply in_map.
  - exfalso; apply Hx; rewrite <- Hf; now apply in_map.
Qed.

Lemma campaign_to_json_id (c : Campaign.t) :
  field "id" (Campaign.to_json c) = Some (JNum (Campaign.id c)).
Proof. reflexivity. Qed.

(** C4.  When the requested [campaignId] parses to a number that is the id
    of a campaign of the dataset, GET /campaign-data answers 200 and its
    body is one campaign object, a campaign of the dataset whose [id] is
    the requested number; where the ids of the dataset are unique it is
    the only campaign with that id. *)
Theorem campaign_data_found (st : store) (data : MarketingData.t)
    (campaignId : string) (n : Z) :
  marketing_data_json st = Some data ->
  parseInt campaignId = Some n ->
  In n (map Campaign.id (MarketingData.campaigns data)) ->
  exists campaign,
    get_campaign_data st (Some campaignId)
    = Respond 200 (Campaign.to_json campaign) /\
    In campaign (MarketingData.campaigns data) /\
    Campaign.id campaign = n /\
    field "id" (Campaign.to_json campaign) = Some (JNum n) /\
    (NoDup (map Campaign.id (MarketingData.campaigns data)) ->
     forall c, In c (MarketingData.campaigns data) ->
               Campaign.id c = n -> c = campaign).
Proof.
  intros Hdata Hparse Hin.
  destruct (find_id_some _ _ Hin) as (campaign & Hfind & Hc & Hid).
  exists campaign.
  rewrite (get_campaign_data_parsed st data campaignId n Hdata Hparse), Hfind.
  repeat split; auto.
  - rewrite <- Hid; apply campaign_to_json_id.
  - intros Hnd c Hc' Hid'.
    apply (NoDup_map_injective Campaign.id _ Hnd); congruence.
Qed.

Lemma campaign_data_found_witness :
  exists campaign,
    get_campaign_data Sample.files (Some "2")
    = Respond 200 (Campaign.to_json campaign) /\
    Campaign.id campaign = 2.
Proof.
  destruct (campaign_data_found Sample.files Sample.marketing "2" 2)
    as (campaign & Hget & _ & Hid & _).
  - reflexivity.
  - reflexivity.
  - simpl; auto.
  - exists campaign; auto.
Defined.

(** X4.  The decimal numeral of the id of a campaign of the dataset,
    which is what the code prints for an id that is a safe integer,
    selects a campaign with that id. *)
Corollary campaign_data_numeral (st : store) (data : MarketingData.t)
    (c : Campaign.t) :
  marketing_data_json st = Some data ->
  In c (MarketingData.campaigns data) ->
  safe_integer (Campaign.id c) ->
  exists campaign,
    get_campaign_data st (Some (toString (Campaign.id c)))
    = Respond 200 (Campaign.to_json campaign) /\
    Campaign.id campaign = Campaign.id c /\
    field "id" (Campaign.to_json campaign) = Some (JNum (Campaign.id c)).
Proof.
  intros Hdata Hc _.
  rewrite (get_campaign_data_parsed st data _ _ Hdata
             (parseInt_toString (Campaign.id c))).
  destruct (find_id_some (MarketingData.campaigns data) (Campaign.id c))
    as (campaign & -> & _ & Hid); [now apply in_map|].
  exists campaign; repeat split; auto.
  rewrite <- Hid; apply campaign_to_json_id.
Qed.

(** A decimal integer is numeric. *)
Lemma integer_literal_numeric (s : string) :
  integer_literal s = true -> numeric s.
Proof.
  destruct s as [|c rest]; [discriminate|]; cbn [integer_literal].
  destruct (Ascii.eqb_spec c "-") as [->|Hm]; cbn [orb].
  { destruct rest as [|d rest]; [discriminate|].
    cbn [String.eqb negb andb all_digits]; intros H.
    apply andb_true_iff in H as [Hd _].
    exists "", "-", (-1), d, rest; auto using sign. }
  destruct (Ascii.eqb_spec c "+") as [->|Hp].
  { destruct rest as [|d rest]; [discriminate|].
    cbn [String.eqb negb andb all_digits]; intros H.
    apply andb_true_iff in H as [Hd _].
    exists "", "+", 1, d, rest; auto using sign. }
  cbn [all_digits]; intros H; apply andb_true_iff in H as [Hc _].
  exists "", "", 1, c, rest; auto using sign.
Qed.

(** C5, as the code has it.  A [campaignId] that starts, after optional
    white space, with an optionally signed run of decimal digits is read
    as the integer those digits denote; when that integer is a safe
    integer and the id of no campaign, GET /campaign-data answers 404.
    A [campaignId] that does not start so is answered 400, and so is a
    missing parameter. *)
Theorem campaign_data_errors (st : store) :
  (forall data ws sg k d ds rest,
      marketing_data_json st = Some data ->
      all_whitespace ws = true -> sign sg k ->
      is_digit d = true -> all_digits ds = true -> ends_digits rest ->
      let campaignId := ws ++ sg ++ String d ds ++ rest in
      let n := k * decimal_value (String d ds) in
      safe_integer n ->
      ~ In n (map Campaign.id (MarketingData.campaigns data)) ->
      parseInt campaignId = Some n /\
      status_of (get_campaign_data st (Some campaignId)) = Some 404) /\
  (forall campaignId,
      ~ numeric campaignId ->
      status_of (get_campaign_data st (Some campaignId)) = Some 400) /\
  status_of (get_campaign_data st None) = Some 400.
Proof.
  split; [|split].
  - intros data ws sg k d ds rest Hdata Hws Hsg Hd Hds Hrest campaignId n
           _ Hnin.
    assert (Hparse : parseInt campaignId = Some n)
      by now apply parseInt_number.
    split; [assumption|].
    rewrite (get_campaign_data_parsed st data campaignId n Hdata Hparse).
    now rewrite find_id_none.
  - intros campaignId H; now rewrite get_campaign_data_not_numeric.
  - reflexivity.
Qed.

Lemma campaign_data_errors_witness :
  status_of (get_campaign_data Sample.files (Some " +99 red balloons"))
  = Some 404 /\
  status_of (get_campaign_data Sample.files (Some "abc")) = Some 400.
Proof.
  destruct (campaign_data_errors Sample.files) as (H404 & H400 & _).
  split.
  - refine (proj2 (H404 Sample.marketing " " "+" 1 "9"%char "9" " red balloons"
                     eq_refl eq_refl sign_plus eq_refl eq_refl eq_refl
                     _ _)).
    + unfold safe_integer; change (1 * decimal_value "99") with 99; lia.
    + change (1 * decimal_value "99") with 99.
      simpl; intros [H|[H|[H|[H|[]]]]]; discriminate.
  - apply (H400 "abc"), parseInt_none_iff; reflexivity.
Defined.

(** C5 as the specification words it fails: ["2abc"] is not a number and
    is answered with campaign 2, not with 400; and the decimal 2.5, the
    id of no campaign, is answered with campaign 2, not with 404. *)
Lemma campaign_data_non_numeric_counterexample :
  integer_literal "2abc" = false /\
  get_campaign_data Sample.files (Some "2abc")
  = Respond 200 (Campaign.to_json Sample.campaign2) /\
  ~ In "2.5"%string
       (map (fun c => toString (Campaign.id c))
            (MarketingData.campaigns Sample.marketing)) /\
  get_campaign_data Sample.files (Some "2.5")
  = Respond 200 (Campaign.to_json Sample.campaign2).
Proof.
  repeat split.
  simpl; intros [H|[H|[H|[H|[]]]]]; discriminate.
Qed.

(** C9.  A [campaignId] that starts with an optionally signed run of
    decimal digits and goes on with a character that is not a digit is
    not answered with 400: the answer is 200 or 404.  When the integer
    its signed digits denote is a safe integer, that integer is what is
    read, and the answer is 200 with a campaign of that id when the
    dataset has one, and 404 otherwise. *)
Theorem campaign_data_numeric_prefix (st : store) (data : MarketingData.t)
    (sg : string) (k : Z) (d : ascii) (ds : string) (c : ascii)
    (rest : string) :
  marketing_data_json st = Some data ->
  sign sg k ->
  is_digit d = true -> all_digits ds = true -> is_digit c = false ->
  let campaignId := sg ++ String d ds ++ String c rest in
  let n := k * decimal_value (String d ds) in
  status_of (get_campaign_data st (Some campaignId)) <> Some 400 /\
  (status_of (get_campaign_data st (Some campaignId)) = Some 200 \/
   status_of (get_campaign_data st (Some campaignId)) = Some 404) /\
  (safe_integer n ->
   parseInt campaignId = Some n /\
   (In n (map Campaign.id (MarketingData.campaigns data)) ->
    exists campaign,
      get_campaign_data st (Some campaignId)
      = Respond 200 (Campaign.to_json campaign) /\
      In campaign (MarketingData.campaigns data) /\
      Campaign.id campaign = n /\
      field "id" (Campaign.to_json campaign) = Some (JNum n)) /\
   (~ In n (map Campaign.id (MarketingData.campaigns data)) ->
    status_of (get_campaign_data st (Some campaignId)) = Some 404)).
Proof.
  intros Hdata Hsg Hd Hds Hc campaignId n.
  assert (Hparse : parseInt campaignId = Some n)
    by (apply (parseInt_number "" sg k d ds (String c rest)); auto).
  pose proof (get_campaign_data_parsed st data campaignId n Hdata Hparse)
    as Hget.
  split; [|split; [|intros _; split; [|split]]].
  - rewrite Hget; destruct (find _ _); discriminate.
  - rewrite Hget; destruct (find _ _); auto.
  - assumption.
  - intros Hin; destruct (find_id_some _ _ Hin) as (campaign & Hf & H1 & H2).
    exists campaign; rewrite Hget, Hf; repeat split; auto.
    rewrite <- H2; apply campaign_to_json_id.
  - intros Hnin; now rewrite Hget, find_id_none.
Qed.

Lemma campaign_data_numeric_prefix_witness :
  parseInt "2abc" = Some 2 /\
  status_of (get_campaign_data Sample.files (Some "2abc")) = Some 200 /\
  status_of (get_campaign_data Sample.files (Some "-7x")) = Some 404.
Proof.
  assert (Hsafe : forall n, - 100 <= n <= 100 -> safe_integer n)
    by (unfold safe_integer; lia).
  pose proof (campaign_data_numeric_prefix Sample.files Sample.marketing
                "" 1 "2" "" "a" "bc" eq_refl sign_none eq_refl eq_refl
                eq_refl) as (_ & _ & Hfound).
  pose proof (campaign_data_numeric_prefix Sample.files Sample.marketing
                "-" (-1) "7" "" "x" "" eq_refl sign_minus eq_refl eq_refl
                eq_refl) as (_ & _ & Hmissing).
  destruct Hfound as (Hparse & Hfound & _);
    [apply Hsafe; change (1 * decimal_value "2") with 2; lia|].
  destruct Hmissing as (_ & _ & Hmissing);
    [apply Hsafe; change (-1 * decimal_value "7") with (-7); lia|].
  split; [|split].
  - exact Hparse.
  - destruct Hfound as (campaign & Hget & _); [simpl; auto|].
    cbn [append] in Hget; now rewrite Hget.
  - cbn [append] in Hmissing; apply Hmissing.
    simpl; intros [H|[H|[H|[H|[]]]]]; discriminate.
Defined.


(** ** GET /region-data *)

Lemma find_first_entry (region : string) (rps : list RegionalPerformance.t)
    (rp : RegionalPerformance.t) :
  find (fun x => String.eqb (RegionalPerformance.region x) region) rps
  = Some rp ->
  first_entry_for region rps rp.
Proof.
  induction rps as [|x rps IH]; simpl; [discriminate|].
  destruct (String.eqb_spec (RegionalPerformance.region x) region) as [Hx|Hx].
  - intros [= ->]; exists [], rps; auto.
  - intros H; destruct (IH H) as (before & after & -> & Hr & Hb).
    exists (x :: before), after; auto.
Qed.

Lemma find_existsb {A : Type} (p : A -> bool) (l : list A) :
  existsb p l = match find p l with Some _ => true | None => false end.
Proof.
  induction l as [|x l IH]; simpl; [reflexivity|].
  destruct (p x); auto.
Qed.

Lemma has_region_spec (region : string) (c : Campaign.t) :
  has_region region c = true <->
  exists rps rp,
    Campaign.regional_performance c = Some rps /\
    In rp rps /\ RegionalPerformance.region rp = region.
Proof.
  unfold has_region; split.
  - destruct (Campaign.regional_performance c) as [rps|]; [|discriminate].
    intros H; apply existsb_exists in H as (rp & Hin & Heq).
    apply String.eqb_eq in Heq; eauto.
  - intros (rps & rp & -> & Hin & Heq).
    apply existsb_exists; exists rp; split; [assumption|].
    now apply String.eqb_eq.
Qed.

(** The loop over the campaigns appends, in order, the row of every
    campaign that has the region, and nothing else. *)
Lemma region_fold (region : string) (cs : list Campaign.t) :
  forall regionalData,
  exists rows,
    fold_left (region_step region) cs regionalData
    = (regionalData ++ rows)%list /\
    Forall2 (row_of region) (filter (has_region region) cs) rows.
Proof.
  induction cs as [|c cs IH]; intros regionalData.
  - exists []; simpl; rewrite app_nil_r; auto.
  - cbn [fold_left filter]; unfold region_step at 2, has_region.
    destruct (Campaign.regional_performance c) as [rps|] eqn:Hrps.
    + rewrite find_existsb.
      destruct (find _ rps) as [rp|] eqn:Hfind.
      * destruct (IH (regionalData ++ [region_row c rp])%list)
          as (rows & -> & Hrows).
        exists (region_row c rp :: rows); rewrite <- app_assoc; split; auto.
        constructor; [|assumption].
        exists rps, rp; auto using find_first_entry.
      * apply IH.
    + apply IH.
Qed.

Lemma region_row_keys (c : Campaign.t) (rp : RegionalPerformance.t) :
  keys (region_row c rp) = region_row_fields.
Proof. reflexivity. Qed.

Lemma row_of_keys (region : string) (cs : list Campaign.t) (rows : list json) :
  Forall2 (row_of region) cs rows ->
  Forall (fun row => keys row = region_row_fields) rows.
Proof.
  induction 1 as [|c row cs rows (rps & rp & _ & _ & ->) _ IH]; constructor.
  - apply region_row_keys.
  - assumption.
Qed.

(** C1, as the code has it.  For every region string, other than the
    empty one, that occurs in the regional performance of a campaign, GET
    /region-data answers 200 with an array that has, in dataset order,
    one row for each campaign with an entry for that region (compared as
    strings, case included); the row projects the first such entry, the
    campaigns without a [regional_performance] collection contribute
    nothing, and every row has exactly the fourteen fields [campaign],
    [name], [region], [country], [impressions], [clicks], [conversions],
    [spend], [revenue], [ctr], [conversion_rate], [cpc], [cpa], [roas]. *)
Theorem region_data_rows (st : store) (data : MarketingData.t)
    (region : string) :
  marketing_data_json st = Some data ->
  region <> "" ->
  region_present data region ->
  exists rows,
    get_region_data st (Some region) = Respond 200 (JArr rows) /\
    Forall2 (row_of region)
            (filter (has_region region) (MarketingData.campaigns data))
            rows /\
    Forall (fun row => keys row = region_row_fields /\
                       List.length (keys row) = 14%nat) rows.
Proof.
  intros Hdata Hne (c & rps & rp & Hc & Hrps & Hrp & Hreg).
  destruct (region_fold region (MarketingData.campaigns data) [])
    as (rows & Hfold & Hrows).
  exists rows; split; [|split].
  - unfold get_region_data.
    destruct region as [|a region]; [congruence|].
    rewrite Hdata; cbv zeta; rewrite Hfold; cbn [app].
    destruct rows as [|row rows]; [|reflexivity].
    exfalso.
    assert (Hin : In c (filter (has_region (String a region))
                               (MarketingData.campaigns data))).
    { apply filter_In; split; [assumption|].
      apply has_region_spec; eauto. }
    inversion Hrows as [Hnil|]; rewrite <- Hnil in Hin; contradiction.
  - assumption.
  - apply row_of_keys in Hrows.
    eapply Forall_impl; [|exact Hrows].
    intros row ->; split; reflexivity.
Qed.

Lemma region_data_rows_witness :
  exists rows,
    get_region_data Sample.files (Some "Dubai") = Respond 200 (JArr rows) /\
    Forall2 (row_of "Dubai") [Sample.campaign1; Sample.campaign2] rows.
Proof.
  destruct (region_data_rows Sample.files Sample.marketing "Dubai")
    as (rows & Hget & Hrows & _).
  - reflexivity.
  - discriminate.
  - exists Sample.campaign1, [Sample.dubai; Sample.abu_dhabi], Sample.dubai.
    simpl; auto.
  - exists rows; split; assumption.
Defined.

(** C1 as the specification words it fails twice: a row has fourteen
    fields, not thirteen, and the empty region string, although it occurs
    in the dataset, is answered with 400. *)
Lemma region_data_thirteen_fields_counterexample :
  (exists row1 row2,
      get_region_data Sample.files (Some "Dubai")
      = Respond 200 (JArr [row1; row2]) /\
      List.length (keys row1) = 14%nat /\
      List.length (keys row1) <> 13%nat) /\
  (region_present Sample.marketing "" /\
   status_of (get_region_data Sample.files (Some "")) = Some 400).
Proof.
  split.
  - exists (region_row Sample.campaign1 Sample.dubai),
           (region_row Sample.campaign2 Sample.dubai).
    split; [reflexivity|]; split; [reflexivity|discriminate].
  - split; [|reflexivity].
    exists Sample.campaign4, [Sample.unnamed_region], Sample.unnamed_region.
    repeat split; simpl; auto 10.
Qed.

Example region_data_case_sensitive :
  status_of (get_region_data Sample.files (Some "dubai")) = Some 404.
Proof. reflexivity. Qed.


(** ** POST /creative-data *)

Lemma includes_In (ns : list Z) (n : Z) : includes ns n = true <-> In n ns.
Proof.
  unfold includes; rewrite existsb_exists; split.
  - intros (m & Hin & Heq); apply Z.eqb_eq in Heq; now subst.
  - intros Hin; exists n; split; [assumption | apply Z.eqb_refl].
Qed.


(** The inner loop appends the rows of the selected creatives of one
    campaign. *)
Lemma creative_fold (ns : list Z) (c : Campaign.t) (crs : list Creative.t) :
  forall creativePerformanceData,
    fold_left (creative_step ns c) crs creativePerformanceData
    = (creativePerformanceData
       ++ map (fun p => creative_row (fst p) (snd p))
            (filter (fun p => includes ns (Creative.id (snd p)))
                    (map (pair c) crs)))%list.
Proof.
  induction crs as [|cr crs IH]; intros acc; cbn [fold_left map filter].
  - now rewrite app_nil_r.
  - rewrite IH; unfold creative_step; cbn [snd fst].
    destruct (includes ns (Creative.id cr)); [|reflexivity].
    now rewrite <- app_assoc.
Qed.

(** The outer loop appends the rows of the selected creatives of every
    campaign, in dataset order. *)
Lemma campaign_fold (ns : list Z) (cs : list Campaign.t) :
  forall creativePerformanceData,
    fold_left (campaign_step ns) cs creativePerformanceData
    = (creativePerformanceData
       ++ map (fun p => creative_row (fst p) (snd p))
            (matched (MarketingData.mk cs) ns))%list.
Proof.
  unfold matched, owned_creatives; cbn [MarketingData.campaigns].
  induction cs as [|c cs IH]; intros acc; cbn [fold_left flat_map].
  - now rewrite app_nil_r.
  - rewrite IH, filter_app, map_app, app_assoc; f_equal.
    unfold campaign_step.
    destruct (Campaign.creatives c) as [crs|].
    + apply creative_fold.
    + now rewrite app_nil_r.
Qed.

Lemma creative_rows (data : MarketingData.t) (ns : list Z) :
  fold_left (campaign_step ns) (MarketingData.campaigns data) []
  = map (fun p => creative_row (fst p) (snd p)) (matched data ns).
Proof. destruct data as [cs]; apply (campaign_fold ns cs []). Qed.

(** What the handler does once some id has parsed and the file is read. *)
Lemma post_creative_data_numeric (st : store) (data : MarketingData.t)
    (creativeIds : list json) :
  marketing_data_json st = Some data ->
  drop_null (map numeric_id creativeIds) <> [] ->
  post_creative_data st (Some (JArr creativeIds))
  = match matched data (drop_null (map numeric_id creativeIds)) with
    | [] =>
        Respond 404
          (error_body "No creatives found"
             ("No creatives found for the provided IDs: "
              ++ join ", " (map element_string creativeIds)))
    | _ :: _ =>
        let rows :=
          map (fun p => creative_row (fst p) (snd p))
              (matched data (drop_null (map numeric_id creativeIds))) in
        Respond 200
          (JObj [("message",
                  JStr "Creative performance data retrieved successfully");
                 ("requested_ids", JArr creativeIds);
                 ("found_creatives", JNum (Z.of_nat (List.length rows)));
                 ("data", JArr rows)])
    end.
Proof.
  intros Hdata Hnum; unfold post_creative_data.
  destruct creativeIds as [|id ids]; [now elim Hnum|].
  destruct (drop_null (map numeric_id (id :: ids))) as [|n ns] eqn:Hns;
    [now elim Hnum|].
  rewrite Hdata; cbv zeta; rewrite creative_rows.
  destruct (matched data (n :: ns)); reflexivity.
Qed.

Lemma post_creative_data_none_numeric (st : store) (creativeIds : list json) :
  drop_null (map numeric_id creativeIds) = [] ->
  exists e m,
    post_creative_data st (Some (JArr creativeIds))
    = Respond 400 (error_body e m).
Proof.
  intros Hnum; unfold post_creative_data.
  destruct creativeIds as [|id ids]; [eauto|].
  rewrite Hnum; eauto.
Qed.







Lemma safe_small (n : Z) : - 1000000 <= n <= 1000000 -> safe_integer n.
Proof. unfold safe_integer; lia. Qed.

Ltac safe_entries :=
  unfold safe_request;
  repeat (apply Forall_cons;
          [ let n := fresh "n" in
            let Hn := fresh "Hn" in
            intros n Hn; vm_compute in Hn;
            first [ discriminate
                  | injection Hn as <-; apply safe_small; lia ]
          | ]);
  apply Forall_nil.




Lemma or_null_truthy (v : json) : truthy v = true -> or_null (Some v) = v.
Proof. intros H; unfold or_null; now rewrite H. Qed.


Lemma matched_In (data : MarketingData.t) (ns : list Z)
    (p : Campaign.t * Creative.t) :
  In p (matched data ns) <->
  In p (owned_creatives data) /\ In (Creative.id (snd p)) ns.
Proof. unfold matched; now rewrite filter_In, includes_In. Qed.




(** A stored variant that is truthy is passed on as it is. *)
Example creative_row_variant_kept :
  field "a_b_test_variant" (creative_row Sample.campaign1 Sample.creative101)
  = Some (JStr "A").
Proof. reflexivity. Qed.


(** ** The credential endpoints *)

Lemma role_decision_three_way (st : store) (user : User.t) :
  three_way st user (role_decision st user).
Proof.
  unfold three_way, role_decision; split; [|split].
  - intros -> marketingData ->; reflexivity.
  - intros ->; split; reflexivity.
  - intros Hadmin Huser.
    destruct (String.eqb_spec (User.role user) "admin"); [contradiction|].
    destruct (String.eqb_spec (User.role user) "user"); [contradiction|].
    split; reflexivity.
Qed.

Lemma role_decision_status (st : store) (user : User.t) :
  status_of (role_decision st user) <> Some 401.
Proof.
  unfold role_decision.
  destruct (String.eqb _ "admin");
    [destruct (marketing_data_json st) | destruct (String.eqb _ "user")];
    discriminate.
Qed.

Section Credentials.

Variable simpleDecrypt : string -> string.
Variable st : store.
Variables username password : string.
Hypothesis username_supplied : username <> "".
Hypothesis password_supplied : password <> "".

Lemma simple_unknown_user (usersData : UsersData.t) :
  users_json st = Some usersData ->
  find_user username usersData = None ->
  get_simple_protected_data st (Some username) (Some password)
  = Respond 404 (error_body "User not found" "User not found").
Proof.
  unfold find_user, get_simple_protected_data; intros -> Hfind.
  destruct username; [contradiction|]; destruct password; [contradiction|].
  now rewrite Hfind.
Qed.

(** Past the lookup, the plain-text handler compares the stored password
    with the supplied one and then takes the role decision. *)
Lemma simple_known_user (usersData : UsersData.t) (user : User.t) :
  users_json st = Some usersData ->
  find_user username usersData = Some user ->
  get_simple_protected_data st (Some username) (Some password)
  = if String.eqb (User.password user) password
    then role_decision st user
    else Respond 401 (error_body "Invalid credentials" "User not found").
Proof.
  unfold find_user, get_simple_protected_data, role_decision.
  intros -> Hfind.
  destruct username; [contradiction|]; destruct password; [contradiction|].
  rewrite Hfind.
  destruct (String.eqb (User.password user) _); [|reflexivity].
  cbn [negb].
  destruct (String.eqb (User.role user) "admin");
    [destruct (marketing_data_json st)|]; reflexivity.
Qed.

Lemma encrypted_unknown_user (encryptedUsersData : UsersData.t) :
  encrypted_users_json st = Some encryptedUsersData ->
  find_user username encryptedUsersData = None ->
  get_encrypted_protected_data simpleDecrypt st (Some username)
    (Some password)
  = Respond 404 (error_body "User not found" "User not found").
Proof.
  unfold find_user, get_encrypted_protected_data; intros -> Hfind.
  destruct username; [contradiction|]; destruct password; [contradiction|].
  now rewrite Hfind.
Qed.

(** Past the lookup, the encrypted handler compares the two decoded
    passwords and then takes the role decision. *)
Lemma encrypted_known_user (encryptedUsersData : UsersData.t)
    (user : User.t) :
  encrypted_users_json st = Some encryptedUsersData ->
  find_user username encryptedUsersData = Some user ->
  get_encrypted_protected_data simpleDecrypt st (Some username)
    (Some password)
  = if String.eqb (simpleDecrypt (User.password user))
                  (simpleDecrypt password)
    then role_decision st user
    else Respond 401 (error_body "Invalid credentials" "User not found").
Proof.
  unfold find_user, get_encrypted_protected_data, role_decision.
  intros -> Hfind.
  destruct username; [contradiction|]; destruct password; [contradiction|].
  rewrite Hfind; cbv zeta.
  destruct (String.eqb (simpleDecrypt _) _); [|reflexivity].
  cbn [negb].
  destruct (String.eqb (User.role user) "admin");
    [destruct (marketing_data_json st)|]; reflexivity.
Qed.

End Credentials.

Lemma role_decision_role_paths (st : store) (user : User.t) :
  role_paths st user (role_decision st user).
Proof.
  unfold role_paths, role_decision; split; [|split].
  - intros Hrole marketingData ->.
    now rewrite (proj2 (String.eqb_eq _ _) Hrole).
  - intros Hrole.
    destruct (String.eqb_spec (User.role user) "admin") as [Hadmin|_];
      [rewrite Hrole in Hadmin; discriminate|].
    rewrite (proj2 (String.eqb_eq _ _) Hrole); split; reflexivity.
  - intros Hadmin Huser.
    destruct (String.eqb_spec (User.role user) "admin"); [contradiction|].
    destruct (String.eqb_spec (User.role user) "user"); [contradiction|].
    split; reflexivity.
Qed.

(** C2.  In both credential endpoints, once the user is found and the
    password check has passed, the answer is one of three.  Role [admin]:
    200 with the fields [message], [user] and [data], where [user] holds
    the [id], [username], [email] and [role] of the user found and
    [data] the whole campaigns document.  Role [user]: 403 with the fields
    [error], the explanatory [message] and the same [user] summary, and
    no [data].  Any other role: 403 with [error] and the generic
    [message] only, and no [data]. *)
Theorem role_decision_paths (simpleDecrypt : string -> string) (st : store)
    (username password : string) :
  username <> "" -> password <> "" ->
  (forall usersData user,
      users_json st = Some usersData ->
      find_user username usersData = Some user ->
      User.password user = password ->
      role_paths st user
        (get_simple_protected_data st (Some username) (Some password))) /\
  (forall encryptedUsersData user,
      encrypted_users_json st = Some encryptedUsersData ->
      find_user username encryptedUsersData = Some user ->
      simpleDecrypt (User.password user) = simpleDecrypt password ->
      role_paths st user
        (get_encrypted_protected_data simpleDecrypt st (Some username)
           (Some password))).
Proof.
  intros Hu Hp; split.
  - intros usersData user Hfile Hfind Hpw.
    rewrite (simple_known_user st username password Hu Hp usersData user
               Hfile Hfind).
    apply String.eqb_eq in Hpw; rewrite Hpw.
    apply role_decision_role_paths.
  - intros encryptedUsersData user Hfile Hfind Hpw.
    rewrite (encrypted_known_user simpleDecrypt st username password Hu Hp
               encryptedUsersData user Hfile Hfind).
    apply String.eqb_eq in Hpw; rewrite Hpw.
    apply role_decision_role_paths.
Qed.

Lemma role_decision_paths_witness :
  get_simple_protected_data Sample.files (Some "omar_mahmoud")
    (Some "omar789pass")
  = Respond 403
      (JObj [("error", JStr "Access denied");
             ("message", JStr "User must be an admin to access this data.");
             ("user",
              JObj [("id", JNum 2); ("username", JStr "omar_mahmoud");
                    ("email", JStr "omar@example.com");
                    ("role", JStr "user")])]) /\
  get_encrypted_protected_data Sample.decoder Sample.files
    (Some "ahmed_hassan") (Some "hotlkhktpu123")
  = Respond 200
      (JObj [("message", JStr "Access granted - Admin user authenticated");
             ("user",
              JObj [("id", JNum 1); ("username", JStr "ahmed_hassan");
                    ("email", JStr "ahmed@example.com");
                    ("role", JStr "admin")]);
             ("data", MarketingData.to_json Sample.marketing)]).
Proof.
  assert (Hne : forall a s, String a s <> "") by discriminate.
  destruct (role_decision_paths Sample.decoder Sample.files "omar_mahmoud"
              "omar789pass" (Hne _ _) (Hne _ _)) as [Hsimple _].
  destruct (role_decision_paths Sample.decoder Sample.files "ahmed_hassan"
              "hotlkhktpu123" (Hne _ _) (Hne _ _)) as [_ Hencrypted].
  destruct (Hsimple _ Sample.omar eq_refl eq_refl eq_refl)
    as (_ & Huser & _).
  destruct (Hencrypted _ Sample.ahmed_enc eq_refl eq_refl eq_refl)
    as (Hadmin & _).
  destruct (Huser eq_refl) as [Hbody _].
  split; [exact Hbody|].
  exact (Hadmin eq_refl Sample.marketing eq_refl).
Defined.

(** C6.  In both credential endpoints the [message] field of the error
    body is ["User not found"] both when no user has the username
    (status 404, [error] field ["User not found"]) and when the user
    exists and the password check fails (status 401, [error] field
    ["Invalid credentials"]); the body has these two fields only. *)
Theorem credential_errors_wording (simpleDecrypt : string -> string)
    (st : store) (username password : string) :
  username <> "" -> password <> "" ->
  (forall usersData,
      users_json st = Some usersData ->
      let response :=
        get_simple_protected_data st (Some username) (Some password) in
      (find_user username usersData = None ->
       status_of response = Some 404 /\
       response_field "error" response = Some (JStr "User not found") /\
       response_field "message" response = Some (JStr "User not found") /\
       response
       = Respond 404 (JObj [("error", JStr "User not found");
                            ("message", JStr "User not found")])) /\
      (forall user,
          find_user username usersData = Some user ->
          User.password user <> password ->
          status_of response = Some 401 /\
          response_field "error" response
          = Some (JStr "Invalid credentials") /\
          response_field "message" response = Some (JStr "User not found") /\
          response
          = Respond 401 (JObj [("error", JStr "Invalid credentials");
                               ("message", JStr "User not found")]))) /\
  (forall encryptedUsersData,
      encrypted_users_json st = Some encryptedUsersData ->
      let response :=
        get_encrypted_protected_data simpleDecrypt st (Some username)
          (Some password) in
      (find_user username encryptedUsersData = None ->
       status_of response = Some 404 /\
       response_field "error" response = Some (JStr "User not found") /\
       response_field "message" response = Some (JStr "User not found") /\
       response
       = Respond 404 (JObj [("error", JStr "User not found");
                            ("message", JStr "User not found")])) /\
      (forall user,
          find_user username encryptedUsersData = Some user ->
          simpleDecrypt (User.password user) <> simpleDecrypt password ->
          status_of response = Some 401 /\
          response_field "error" response
          = Some (JStr "Invalid credentials") /\
          response_field "message" response = Some (JStr "User not found") /\
          response
          = Respond 401 (JObj [("error", JStr "Invalid credentials");
                               ("message", JStr "User not found")]))).
Proof.
  intros Hu Hp; split.
  - intros usersData Hfile; cbv zeta; split.
    + intros Hfind.
      rewrite (simple_unknown_user st username password Hu Hp usersData
                 Hfile Hfind).
      split; [|split; [|split]]; reflexivity.
    + intros user Hfind Hpw.
      rewrite (simple_known_user st username password Hu Hp usersData user
                 Hfile Hfind).
      apply String.eqb_neq in Hpw; rewrite Hpw.
      split; [|split; [|split]]; reflexivity.
  - intros encryptedUsersData Hfile; cbv zeta; split.
    + intros Hfind.
      rewrite (encrypted_unknown_user simpleDecrypt st username password
                 Hu Hp encryptedUsersData Hfile Hfind).
      split; [|split; [|split]]; reflexivity.
    + intros user Hfind Hpw.
      rewrite (encrypted_known_user simpleDecrypt st username password Hu Hp
                 encryptedUsersData user Hfile Hfind).
      apply String.eqb_neq in Hpw; rewrite Hpw.
      split; [|split; [|split]]; reflexivity.
Qed.

Lemma credential_errors_wording_witness :
  response_field "message"
    (get_simple_protected_data Sample.files (Some "unknown_user")
       (Some "secret"))
  = Some (JStr "User not found") /\
  response_field "error"
    (get_encrypted_protected_data Sample.decoder Sample.files
       (Some "ahmed_hassan") (Some "wrongpass123"))
  = Some (JStr "Invalid credentials") /\
  response_field "message"
    (get_encrypted_protected_data Sample.decoder Sample.files
       (Some "ahmed_hassan") (Some "wrongpass123"))
  = Some (JStr "User not found").
Proof.
  assert (Hne : forall a s, String a s <> "") by discriminate.
  destruct (credential_errors_wording Sample.decoder Sample.files
              "unknown_user" "secret" (Hne _ _) (Hne _ _)) as [Hsimple _].
  destruct (credential_errors_wording Sample.decoder Sample.files
              "ahmed_hassan" "wrongpass123" (Hne _ _) (Hne _ _))
    as [_ Hencrypted].
  destruct (proj1 (Hsimple _ eq_refl) eq_refl) as (_ & _ & Hmessage & _).
  destruct (proj2 (Hencrypted _ eq_refl) Sample.ahmed_enc eq_refl)
    as (_ & Herror & Hmessage' & _); [discriminate|].
  split; [exact Hmessage | split; [exact Herror | exact Hmessage']].
Defined.

(** C7.  In GET /encrypted-protected-data, for a username of the
    obfuscated user file and with both credentials supplied, the stored
    password and the supplied one both go through [simpleDecrypt]; the
    answer is 401 exactly when the two decoded strings differ, and when
    they are equal it is the role decision. *)
Theorem encrypted_password_check (simpleDecrypt : string -> string)
    (st : store) (encryptedUsersData : UsersData.t)
    (username password : string) (user : User.t) :
  username <> "" -> password <> "" ->
  encrypted_users_json st = Some encryptedUsersData ->
  find_user username encryptedUsersData = Some user ->
  let response :=
    get_encrypted_protected_data simpleDecrypt st (Some username)
      (Some password) in
  (status_of response = Some 401 <->
   simpleDecrypt (User.password user) <> simpleDecrypt password) /\
  (simpleDecrypt (User.password user) = simpleDecrypt password ->
   three_way st user response).
Proof.
  intros Hu Hp Hfile Hfind; cbv zeta.
  rewrite (encrypted_known_user simpleDecrypt st username password Hu Hp
             encryptedUsersData user Hfile Hfind).
  destruct (String.eqb_spec (simpleDecrypt (User.password user))
                            (simpleDecrypt password)) as [Heq|Hne].
  - split; [split|].
    + intros H; now apply role_decision_status in H.
    + intros H; contradiction.
    + intros _; apply role_decision_three_way.
  - split; [split|]; auto; contradiction.
Qed.

Lemma encrypted_password_check_witness :
  status_of (get_encrypted_protected_data Sample.decoder Sample.files
               (Some "omar_mahmoud") (Some "vthy789whzz")) <> Some 401 /\
  status_of (get_encrypted_protected_data Sample.decoder Sample.files
               (Some "omar_mahmoud") (Some "omar789pass")) = Some 401.
Proof.
  assert (Hne : forall a s, String a s <> "") by discriminate.
  pose proof (encrypted_password_check Sample.decoder Sample.files _
                "omar_mahmoud" "vthy789whzz" Sample.omar_enc
                (Hne _ _) (Hne _ _) eq_refl eq_refl) as [Hpass _].
  pose proof (encrypted_password_check Sample.decoder Sample.files _
                "omar_mahmoud" "omar789pass" Sample.omar_enc
                (Hne _ _) (Hne _ _) eq_refl eq_refl) as [Hfail _].
  split.
  - intros H; now apply Hpass in H.
  - apply Hfail; discriminate.
Defined.

(** The comparison is on the decoded strings: a candidate that differs
    from the stored password passes when both decode alike. *)
Example encrypted_check_on_decoded :
  status_of (get_encrypted_protected_data (fun _ => "") Sample.files
               (Some "omar_mahmoud") (Some "anything")) = Some 403.
Proof. reflexivity. Qed.


(** * Further properties of the handlers *)

(** ** GET /campaign-data *)

(** What the handler does once the id has parsed, whatever the store. *)
Lemma get_campaign_data_number (st : store) (campaignId : string) (n : Z) :
  parseInt campaignId = Some n ->
  get_campaign_data st (Some campaignId)
  = match marketing_data_json st with
    | None => Uncaught
    | Some data =>
        match find (fun c => Campaign.id c =? n)
                   (MarketingData.campaigns data) with
        | None =>
            Respond 404 (error_body "Campaign not found"
                           "No campaign found with the provided ID")
        | Some campaign => Respond 200 (Campaign.to_json campaign)
        end
    end.
Proof.
  intros Hparse; unfold get_campaign_data.
  destruct campaignId as [|c s]; [discriminate|].
  now rewrite Hparse.
Qed.

Lemma find_first_with_id (cs : list Campaign.t) (n : Z) (c : Campaign.t) :
  find (fun x => Campaign.id x =? n) cs = Some c <-> first_with_id n cs c.
Proof.
  split.
  - induction cs as [|x cs IH]; simpl; [discriminate|].
    destruct (Z.eqb_spec (Campaign.id x) n) as [Hx|Hx].
    + intros [= ->]; exists [], cs; auto.
    + intros H; destruct (IH H) as (before & after & -> & Hid & Hb).
      exists (x :: before), after; auto.
  - intros (before & after & -> & Hid & Hb).
    induction Hb as [|x before Hx _ IH]; simpl.
    + now rewrite (proj2 (Z.eqb_eq _ _) Hid).
    + now rewrite (proj2 (Z.eqb_neq _ _) Hx).
Qed.

(** X1.  The answer depends on the number read, not on how it was written:
    two values of [campaignId] that parse to the same integer are
    answered alike, whatever the store. *)
Theorem campaign_data_same_number (st : store) (a b : string) (n : Z) :
  parseInt a = Some n -> parseInt b = Some n ->
  get_campaign_data st (Some a) = get_campaign_data st (Some b).
Proof.
  intros Ha Hb.
  now rewrite (get_campaign_data_number st a n Ha),
              (get_campaign_data_number st b n Hb).
Qed.

Lemma campaign_data_same_number_witness :
  get_campaign_data Sample.files (Some "2")
  = get_campaign_data Sample.files (Some "  +002.9 units").
Proof.
  apply (campaign_data_same_number Sample.files "2" "  +002.9 units" 2);
    reflexivity.
Defined.

(** X2.  With ids that repeat, the campaign sent is the first one of the file
    with the requested id. *)
Theorem campaign_data_first_match (st : store) (data : MarketingData.t)
    (campaignId : string) (n : Z) (c : Campaign.t) :
  marketing_data_json st = Some data ->
  parseInt campaignId = Some n ->
  first_with_id n (MarketingData.campaigns data) c ->
  get_campaign_data st (Some campaignId) = Respond 200 (Campaign.to_json c).
Proof.
  intros Hdata Hparse Hfirst.
  rewrite (get_campaign_data_number st campaignId n Hparse), Hdata.
  apply find_first_with_id in Hfirst; now rewrite Hfirst.
Qed.

Lemma campaign_data_first_match_witness :
  get_campaign_data
    (mkStore (Some (MarketingData.mk
                      [Sample.campaign1; Sample.campaign2;
                       Campaign.mk 2 (JStr "Shadow") JNull JNull None None]))
             None None)
    (Some "2")
  = Respond 200 (Campaign.to_json Sample.campaign2).
Proof.
  eapply (campaign_data_first_match _ _ "2" 2 Sample.campaign2);
    [reflexivity | reflexivity |].
  exists [Sample.campaign1],
         [Campaign.mk 2 (JStr "Shadow") JNull JNull None None].
  split; [reflexivity|]; split; [reflexivity|].
  constructor; [discriminate | constructor].
Defined.

(** X3.  With the file readable, and for a [campaignId] whose digits, if
    it parses, denote a safe integer, the status tells what was asked:
    200 exactly for a value that parses to the id of a campaign, 404
    exactly for a value that parses to another integer, 400 exactly for
    a missing value or one that is not numeric. *)
Theorem campaign_data_status (st : store) (data : MarketingData.t)
    (campaignId : option string) :
  marketing_data_json st = Some data ->
  (forall s n, campaignId = Some s -> parseInt s = Some n -> safe_integer n) ->
  let ids := map Campaign.id (MarketingData.campaigns data) in
  let status := status_of (get_campaign_data st campaignId) in
  (status = Some 200 <->
   exists s n, campaignId = Some s /\ parseInt s = Some n /\ In n ids) /\
  (status = Some 404 <->
   exists s n, campaignId = Some s /\ parseInt s = Some n /\ ~ In n ids) /\
  (status = Some 400 <->
   campaignId = None \/ exists s, campaignId = Some s /\ ~ numeric s).
Proof.
  intros Hdata _; cbv zeta.
  destruct campaignId as [s|].
  2:{ split; [|split]; (split; [try discriminate|]); auto.
      - intros (s & n & H & _); discriminate.
      - intros (s & n & H & _); discriminate. }
  destruct (parseInt s) as [n|] eqn:Hparse.
  - rewrite (get_campaign_data_number st s n Hparse), Hdata.
    destruct (in_dec Z.eq_dec n
                (map Campaign.id (MarketingData.campaigns data)))
      as [Hin|Hnin].
    + destruct (find_id_some _ _ Hin) as (c & -> & _ & _).
      split; [|split]; (split; [try discriminate|]); eauto.
      * intros (s' & n' & [= <-] & Hp & Hn); exfalso; apply Hn; congruence.
      * intros [H|(s' & [= <-] & Hn)]; [discriminate|].
        apply parseInt_none_iff in Hn; congruence.
    + rewrite (find_id_none _ _ Hnin).
      split; [|split]; (split; [try discriminate|]); eauto.
      * intros (s' & n' & [= <-] & Hp & Hn); exfalso; apply Hnin; congruence.
      * intros [H|(s' & [= <-] & Hn)]; [discriminate|].
        apply parseInt_none_iff in Hn; congruence.
  - assert (Hnn : ~ numeric s) by now apply parseInt_none_iff.
    rewrite (get_campaign_data_not_numeric st s Hnn).
    split; [|split]; (split; [try discriminate|]); eauto.
    + intros (s' & n' & [= <-] & Hp & _); congruence.
    + intros (s' & n' & [= <-] & Hp & _); congruence.
Qed.

Lemma campaign_data_status_witness :
  status_of (get_campaign_data Sample.files (Some " 3rd")) = Some 200.
Proof.
  assert (Hsafe : forall s n, Some " 3rd" = Some s -> parseInt s = Some n ->
                              safe_integer n)
    by (intros s n [= <-] Hn; vm_compute in Hn; injection Hn as <-;
        apply safe_small; lia).
  apply (proj1 (campaign_data_status Sample.files Sample.marketing
                  (Some " 3rd") eq_refl Hsafe)).
  exists " 3rd", 3; repeat split; simpl; auto.
Defined.

(** ** GET /region-data *)

Lemma region_present_iff (data : MarketingData.t) (region : string) :
  region_present data region <->
  exists c, In c (MarketingData.campaigns data) /\ has_region region c = true.
Proof.
  split.
  - intros (c & rps & rp & Hc & Hrps & Hrp & Hreg).
    exists c; split; [assumption|]; apply has_region_spec; eauto.
  - intros (c & Hc & Hhas).
    apply has_region_spec in Hhas as (rps & rp & Hrps & Hrp & Hreg).
    exists c, rps, rp; auto.
Qed.

Lemma region_present_dec (data : MarketingData.t) (region : string) :
  {region_present data region} + {~ region_present data region}.
Proof.
  destruct (existsb (has_region region) (MarketingData.campaigns data))
    eqn:Hex.
  - left; apply region_present_iff, existsb_exists, Hex.
  - right; intros H; apply region_present_iff, existsb_exists in H.
    congruence.
Qed.

(** The loop leaves [regionalData] empty exactly when no campaign has
    the region. *)
Lemma region_rows_empty_iff (data : MarketingData.t) (region : string) :
  fold_left (region_step region) (MarketingData.campaigns data) [] = []
  <-> ~ region_present data region.
Proof.
  destruct (region_fold region (MarketingData.campaigns data) [])
    as (rows & Hfold & Hrows).
  rewrite Hfold; cbn [app]; split.
  - intros -> Hpresent.
    apply region_present_iff in Hpresent as (c & Hc & Hhas).
    assert (Hin : In c (filter (has_region region)
                               (MarketingData.campaigns data)))
      by (apply filter_In; auto).
    inversion Hrows as [Hnil|]; rewrite <- Hnil in Hin; contradiction.
  - intros Habsent.
    destruct (filter (has_region region) (MarketingData.campaigns data))
      as [|c cs] eqn:Hfilter.
    + now inversion Hrows.
    + exfalso; apply Habsent, region_present_iff.
      assert (Hin : In c (filter (has_region region)
                                 (MarketingData.campaigns data)))
        by (rewrite Hfilter; now left).
      apply filter_In in Hin; eauto.
Qed.

Lemma get_region_data_supplied (st : store) (c : ascii) (s : string) :
  get_region_data st (Some (String c s))
  = match marketing_data_json st with
    | None => Uncaught
    | Some data =>
        let regionalData :=
          fold_left (region_step (String c s))
                    (MarketingData.campaigns data) [] in
        match regionalData with
        | [] =>
            Respond 404 (error_body "No campaigns found"
                           ("No campaigns found for region: " ++ String c s))
        | _ :: _ => Respond 200 (JArr regionalData)
        end
    end.
Proof. reflexivity. Qed.

(** X5.  With the file readable, the answer is 200 exactly for a region that
    is not empty and occurs in the dataset, 404 exactly for one that is
    not empty and does not occur, with the region quoted in the message,
    and 400 exactly for a missing or empty region. *)
Theorem region_data_status (st : store) (data : MarketingData.t)
    (region : option string) :
  marketing_data_json st = Some data ->
  let response := get_region_data st region in
  (status_of response = Some 200 <->
   exists r, region = Some r /\ r <> "" /\ region_present data r) /\
  (status_of response = Some 404 <->
   exists r, region = Some r /\ r <> "" /\ ~ region_present data r) /\
  (status_of response = Some 400 <-> region = None \/ region = Some "") /\
  (forall r,
      region = Some r -> r <> "" -> ~ region_present data r ->
      response
      = Respond 404 (error_body "No campaigns found"
                       ("No campaigns found for region: " ++ r))).
Proof.
  intros Hdata; cbv zeta.
  destruct region as [[|c s]|].
  - split; [|split; [|split]]; try (split; [try discriminate|]); auto.
    + intros (r & [= <-] & Hne & _); congruence.
    + intros (r & [= <-] & Hne & _); congruence.
    + intros r [= <-] Hne; congruence.
  - rewrite get_region_data_supplied, Hdata; cbv zeta.
    pose proof (region_rows_empty_iff data (String c s)) as Hempty.
    destruct (fold_left _ _ _) as [|row rows].
    + assert (Habsent : ~ region_present data (String c s))
        by now apply Hempty.
      split; [|split; [|split]]; try (split; [try discriminate|]).
      all: try solve [intros; reflexivity].
      * intros (r & [= <-] & _ & Hp); contradiction.
      * intros _; exists (String c s); repeat split; auto; discriminate.
      * intros [H|H]; discriminate.
      * intros r [= <-] _ _; reflexivity.
    + assert (Hpresent : region_present data (String c s)).
      { destruct (region_present_dec data (String c s)) as [H|H];
          [assumption|].
        apply Hempty in H; discriminate. }
      split; [|split; [|split]]; try (split; [try discriminate|]).
      all: try solve [intros; reflexivity].
      * intros _; exists (String c s); repeat split; auto; discriminate.
      * intros (r & [= <-] & _ & Hp); contradiction.
      * intros [H|H]; discriminate.
      * intros r [= <-] _ Hp; contradiction.
  - split; [|split; [|split]]; try (split; [try discriminate|]); auto.
    + intros (r & H & _); discriminate.
    + intros (r & H & _); discriminate.
    + intros r H; discriminate.
Qed.

Lemma region_data_status_witness :
  get_region_data Sample.files (Some "DUBAI")
  = Respond 404 (error_body "No campaigns found"
                   "No campaigns found for region: DUBAI").
Proof.
  apply (proj2 (proj2 (proj2 (region_data_status Sample.files
                                Sample.marketing (Some "DUBAI") eq_refl)))).
  - reflexivity.
  - discriminate.
  - intros H; apply region_present_iff in H as (c & Hc & Hhas).
    simpl in Hc; destruct Hc as [<-|[<-|[<-|[<-|[]]]]]; discriminate.
Defined.

Lemma Forall2_Forall_r {A B : Type} (R : A -> B -> Prop) (P : B -> Prop)
    (l : list A) (rows : list B) :
  Forall2 R l rows ->
  (forall a b, In a l -> R a b -> P b) ->
  Forall P rows.
Proof.
  induction 1 as [|a b l rows Hab _ IH]; intros HP; constructor.
  - apply (HP a b); [now left | assumption].
  - apply IH; intros a' b' Hin; apply HP; now right.
Qed.

Lemma campaign_of_numeral (st : store) (data : MarketingData.t)
    (c : Campaign.t) :
  marketing_data_json st = Some data ->
  In c (MarketingData.campaigns data) ->
  exists c',
    get_campaign_data st (Some (toString (Campaign.id c)))
    = Respond 200 (Campaign.to_json c') /\
    In c' (MarketingData.campaigns data) /\
    Campaign.id c' = Campaign.id c.
Proof.
  intros Hdata Hc.
  rewrite (get_campaign_data_parsed st data _ _ Hdata
             (parseInt_toString (Campaign.id c))).
  destruct (find_id_some (MarketingData.campaigns data) (Campaign.id c))
    as (c' & -> & Hc' & Hid); [now apply in_map|].
  eauto.
Qed.

(** X6.  The rows of GET /region-data lead back to campaigns.  With
    campaign ids that are safe integers, every row carries the requested
    region and the name and the id, as a decimal numeral, of a campaign
    of the dataset that has the region, and that numeral, sent as
    [campaignId] to GET /campaign-data, is answered 200 with a campaign
    of that id. *)
Theorem region_rows_lead_to_campaigns (st : store) (data : MarketingData.t)
    (region : string) (rows : list json) :
  marketing_data_json st = Some data ->
  Forall (fun c => safe_integer (Campaign.id c))
         (MarketingData.campaigns data) ->
  get_region_data st (Some region) = Respond 200 (JArr rows) ->
  Forall (fun row =>
            field "region" row = Some (JStr region) /\
            exists c,
              In c (MarketingData.campaigns data) /\
              has_region region c = true /\
              field "name" row = Some (Campaign.name c) /\
              field "campaign" row = Some (JStr (toString (Campaign.id c))) /\
              exists c',
                get_campaign_data st (Some (toString (Campaign.id c)))
                = Respond 200 (Campaign.to_json c') /\
                field "id" (Campaign.to_json c')
                = Some (JNum (Campaign.id c)))
         rows.
Proof.
  intros Hdata _ Hget.
  destruct region as [|a s]; [discriminate|].
  rewrite get_region_data_supplied, Hdata in Hget; cbv zeta in Hget.
  destruct (region_fold (String a s) (MarketingData.campaigns data) [])
    as (rows' & Hfold & Hrows).
  rewrite Hfold in Hget; cbn [app] in Hget.
  destruct rows' as [|row rows']; [discriminate|].
  assert (Heq : rows = row :: rows') by congruence.
  rewrite Heq; clear Heq Hget Hfold.
  apply (Forall2_Forall_r _ _ _ _ Hrows).
  intros c r Hin (rps & rp & Hrps & (before & after & _ & Hreg & _) & ->).
  apply filter_In in Hin as [Hc Hhas].
  split; [cbn; now rewrite Hreg|].
  exists c; repeat split; auto.
  destruct (campaign_of_numeral st data c Hdata Hc) as (c' & Hc' & _ & Hid).
  exists c'; split; [assumption|].
  rewrite <- Hid; apply campaign_to_json_id.
Qed.

Lemma region_rows_lead_to_campaigns_witness :
  exists row1 row2,
    get_region_data Sample.files (Some "Dubai")
    = Respond 200 (JArr [row1; row2]) /\
    field "region" row2 = Some (JStr "Dubai").
Proof.
  exists (region_row Sample.campaign1 Sample.dubai),
         (region_row Sample.campaign2 Sample.dubai).
  split; [reflexivity|].
  assert (Hsafe : Forall (fun c => safe_integer (Campaign.id c))
                         (MarketingData.campaigns Sample.marketing))
    by (repeat constructor; apply safe_small; cbn; lia).
  pose proof (region_rows_lead_to_campaigns Sample.files Sample.marketing
                "Dubai" _ eq_refl Hsafe eq_refl) as H.
  inversion H as [|r1 rs1 _ H2]; subst.
  inversion H2 as [|r2 rs2 [Hregion _] _]; subst.
  exact Hregion.
Defined.

(** ** POST /creative-data *)

Lemma In_drop_null (creativeIds : list json) (n : Z) :
  In n (drop_null (map numeric_id creativeIds)) <->
  exists id, In id creativeIds /\ numeric_id id = Some n.
Proof.
  induction creativeIds as [|x l IH]; cbn [map drop_null].
  - split; [contradiction | intros (id & [] & _)].
  - destruct (numeric_id x) as [m|] eqn:Hx; cbn [In]; rewrite IH; split.
    + intros [<-|(id & Hin & Hid)]; [exists x | exists id]; auto.
    + intros (id & [<-|Hin] & Hid); [left; congruence | right; eauto].
    + intros (id & Hin & Hid); eauto.
    + intros (id & [<-|Hin] & Hid); [congruence | eauto].
Qed.


Lemma owned_In (data : MarketingData.t) (c : Campaign.t) (cr : Creative.t) :
  In (c, cr) (owned_creatives data) <->
  In c (MarketingData.campaigns data) /\
  exists crs, Campaign.creatives c = Some crs /\ In cr crs.
Proof.
  unfold owned_creatives; rewrite in_flat_map; split.
  - intros (c' & Hc' & Hin).
    destruct (Campaign.creatives c') as [crs|] eqn:Hcrs; [|contradiction].
    apply in_map_iff in Hin as (cr' & [= <- <-] & Hcr); eauto.
  - intros (Hc & crs & Hcrs & Hcr).
    exists c; split; [assumption|]; rewrite Hcrs; now apply in_map.
Qed.



Lemma post_creative_data_unreadable (st : store) (creativeIds : list json) :
  marketing_data_json st = None ->
  drop_null (map numeric_id creativeIds) <> [] ->
  post_creative_data st (Some (JArr creativeIds)) = Uncaught.
Proof.
  intros Hdata Hnum; unfold post_creative_data.
  destruct creativeIds as [|id ids]; [now elim Hnum|].
  destruct (drop_null (map numeric_id (id :: ids))); [now elim Hnum|].
  now rewrite Hdata.
Qed.









(** X8.  A 200 answer echoes the request and counts its own rows: the body
    has the message, [requested_ids] as they were sent (entries that did
    not parse included), the rows under [data], of which there is at
    least one, and their number under [found_creatives]. *)
Theorem creative_data_body (st : store) (creativeIds : option json)
    (body : json) :
  post_creative_data st creativeIds = Respond 200 body ->
  exists l rows,
    creativeIds = Some (JArr l) /\
    rows <> [] /\
    body
    = JObj [("message",
             JStr "Creative performance data retrieved successfully");
            ("requested_ids", JArr l);
            ("found_creatives", JNum (Z.of_nat (List.length rows)));
            ("data", JArr rows)].
Proof.
  intros Hpost.
  destruct creativeIds as [[| | | |l|]|]; try discriminate.
  destruct (drop_null (map numeric_id l)) as [|n ns] eqn:Hns.
  { destruct (post_creative_data_none_numeric st l Hns) as (e & m & Heq).
    rewrite Heq in Hpost; discriminate. }
  assert (Hne : drop_null (map numeric_id l) <> [])
    by (rewrite Hns; discriminate).
  destruct (marketing_data_json st) as [data|] eqn:Hdata.
  - rewrite (post_creative_data_numeric st data l Hdata Hne) in Hpost.
    destruct (matched data (drop_null (map numeric_id l))) as [|p ps];
      [discriminate|].
    cbv zeta in Hpost.
    exists l, (map (fun p => creative_row (fst p) (snd p)) (p :: ps)).
    split; [reflexivity|]; split; [discriminate | congruence].
  - rewrite (post_creative_data_unreadable st l Hdata Hne) in Hpost.
    discriminate.
Qed.

Lemma creative_data_body_witness :
  exists l rows,
    Some (JArr [JStr "x"; JNum 102]) = Some (JArr l) /\
    rows <> [] /\
    JObj [("message", JStr "Creative performance data retrieved successfully");
          ("requested_ids", JArr [JStr "x"; JNum 102]);
          ("found_creatives", JNum 1);
          ("data", JArr [creative_row Sample.campaign1 Sample.creative102])]
    = JObj [("message",
             JStr "Creative performance data retrieved successfully");
            ("requested_ids", JArr l);
            ("found_creatives", JNum (Z.of_nat (List.length rows)));
            ("data", JArr rows)].
Proof.
  exact (creative_data_body Sample.files
           (Some (JArr [JStr "x"; JNum 102])) _ eq_refl).
Defined.

Lemma matched_ext (data : MarketingData.t) (ns ns' : list Z) :
  (forall p, In p (owned_creatives data) ->
             (In (Creative.id (snd p)) ns <-> In (Creative.id (snd p)) ns')) ->
  matched data ns = matched data ns'.
Proof.
  intros H; unfold matched; apply filter_ext_in; intros p Hp.
  destruct (includes ns' (Creative.id (snd p))) eqn:H'.
  - apply includes_In, H, includes_In; assumption.
  - destruct (includes ns (Creative.id (snd p))) eqn:H''; [|reflexivity].
    apply includes_In, H, includes_In in H''; [congruence | assumption].
Qed.

(** Requests that select the same creatives and both hold an entry that
    parses are answered with the same status, count and rows. *)
Lemma post_creative_data_same_selection (st : store)
    (l l' : list json) :
  drop_null (map numeric_id l) <> [] ->
  drop_null (map numeric_id l') <> [] ->
  (forall data, marketing_data_json st = Some data ->
                matched data (drop_null (map numeric_id l))
                = matched data (drop_null (map numeric_id l'))) ->
  let response := post_creative_data st (Some (JArr l)) in
  let response' := post_creative_data st (Some (JArr l')) in
  status_of response = status_of response' /\
  response_field "found_creatives" response
  = response_field "found_creatives" response' /\
  response_field "data" response = response_field "data" response'.
Proof.
  intros Hne Hne' Hsame; cbv zeta.
  destruct (marketing_data_json st) as [data|] eqn:Hdata.
  - rewrite (post_creative_data_numeric st data l Hdata Hne),
            (post_creative_data_numeric st data l' Hdata Hne'),
            (Hsame data eq_refl).
    destruct (matched data _); repeat split.
  - rewrite (post_creative_data_unreadable st l Hdata Hne),
            (post_creative_data_unreadable st l' Hdata Hne').
    repeat split.
Qed.



Lemma map_Some_eq {A B : Type} (f : A -> option B) (g : A -> B)
    (l : list A) (l' : list B) :
  (forall a, f a = Some (g a)) ->
  map Some l' = map f l -> l' = map g l.
Proof.
  intros Hf; revert l'; induction l as [|a l IH]; intros [|b l'];
    cbn [map]; try discriminate; [reflexivity|].
  rewrite Hf; intros [= -> H]; f_equal; auto.
Qed.

Lemma creative_row_id (c : Campaign.t) (cr : Creative.t) :
  field "creative_id" (creative_row c cr) = Some (JNum (Creative.id cr)).
Proof. reflexivity. Qed.

Lemma drop_null_numbers (ns : list Z) :
  drop_null (map numeric_id (map JNum ns)) = ns.
Proof.
  induction ns as [|n ns IH]; [reflexivity|].
  cbn [map drop_null]; unfold numeric_id at 1; cbn [to_string].
  now rewrite parseInt_toString, IH.
Qed.

(** X10.  Asking again for what was found changes nothing: for a request
    whose entries parse to safe integers only, when the [creative_id]
    values of the rows of the answer are sent back as [creativeIds], the
    answer has the same status, the same [found_creatives] and the same
    rows. *)
Theorem creative_data_ask_again (st : store) (data : MarketingData.t)
    (l : list json) (rows l' : list json) :
  marketing_data_json st = Some data ->
  safe_request l ->
  response_field "data" (post_creative_data st (Some (JArr l)))
  = Some (JArr rows) ->
  map Some l' = map (field "creative_id") rows ->
  let response := post_creative_data st (Some (JArr l)) in
  let response' := post_creative_data st (Some (JArr l')) in
  status_of response' = status_of response /\
  response_field "found_creatives" response'
  = response_field "found_creatives" response /\
  response_field "data" response' = Some (JArr rows).
Proof.
  intros Hdata _ Hrows Hl'.
  assert (Hne : drop_null (map numeric_id l) <> []).
  { intros Hnil.
    destruct (post_creative_data_none_numeric st l Hnil) as (e & m & He).
    rewrite He in Hrows; discriminate. }
  pose proof (post_creative_data_numeric st data l Hdata Hne) as Hpost.
  destruct (matched data (drop_null (map numeric_id l))) as [|p ps] eqn:Hm.
  { rewrite Hpost in Hrows; discriminate. }
  cbv zeta in Hpost.
  assert (Heq : rows = map (fun p => creative_row (fst p) (snd p)) (p :: ps))
    by (rewrite Hpost in Hrows; cbn in Hrows; injection Hrows as <-;
        reflexivity).
  assert (Hids : l' = map JNum (map (fun p => Creative.id (snd p)) (p :: ps))).
  { rewrite map_map.
    apply (map_Some_eq
             (fun q => field "creative_id" (creative_row (fst q) (snd q)))).
    - intros q; apply creative_row_id.
    - now rewrite Hl', Heq, map_map. }
  assert (Hparsed : drop_null (map numeric_id l')
                    = map (fun p => Creative.id (snd p)) (p :: ps))
    by (rewrite Hids; apply drop_null_numbers).
  cbv zeta; rewrite <- Hrows.
  assert (H : status_of (post_creative_data st (Some (JArr l')))
              = status_of (post_creative_data st (Some (JArr l))) /\
              response_field "found_creatives"
                (post_creative_data st (Some (JArr l')))
              = response_field "found_creatives"
                  (post_creative_data st (Some (JArr l))) /\
              response_field "data" (post_creative_data st (Some (JArr l')))
              = response_field "data"
                  (post_creative_data st (Some (JArr l)))).
  { apply post_creative_data_same_selection;
      [rewrite Hparsed; discriminate | assumption |].
    intros data' Hdata'; assert (data' = data) by congruence; subst data'.
    rewrite Hparsed, <- Hm.
    apply matched_ext; intros q Hq; split.
    - intros Hin; apply in_map_iff in Hin as (q' & Hid & Hq').
      apply matched_In in Hq' as [_ Hq']; now rewrite <- Hid.
    - intros Hin; apply in_map_iff; exists q; split; [reflexivity|].
      now apply matched_In. }
  exact H.
Qed.

Lemma creative_data_ask_again_witness :
  response_field "data"
    (post_creative_data Sample.files (Some (JArr [JNum 101; JNum 201])))
  = Some (JArr [creative_row Sample.campaign1 Sample.creative101;
                creative_row Sample.campaign2 Sample.creative201]).
Proof.
  apply (creative_data_ask_again Sample.files Sample.marketing
           [JStr "101st"; JStr "7"; JStr "+201"]
           [creative_row Sample.campaign1 Sample.creative101;
            creative_row Sample.campaign2 Sample.creative201]
           [JNum 101; JNum 201]); try reflexivity.
  safe_entries.
Defined.

(** X11.  The rows are those of the requested creatives and no others: for
    a request whose entries parse to safe integers only, a row is in
    [data] exactly when it is the row of a creative of some campaign of
    the dataset whose id some requested entry parses to; the row holds
    the id, name, status and medium of that campaign, the properties of
    the creative, and its [a_b_test_variant] or [null]. *)
Theorem creative_data_rows (st : store) (data : MarketingData.t)
    (l rows : list json) :
  marketing_data_json st = Some data ->
  safe_request l ->
  response_field "data" (post_creative_data st (Some (JArr l)))
  = Some (JArr rows) ->
  forall row,
    In row rows <->
    exists c crs cr id,
      In c (MarketingData.campaigns data) /\
      Campaign.creatives c = Some crs /\ In cr crs /\
      In id l /\ numeric_id id = Some (Creative.id cr) /\
      row
      = JObj [("campaign_id", JNum (Campaign.id c));
              ("campaign_name", Campaign.name c);
              ("campaign_status", Campaign.status c);
              ("campaign_medium", Campaign.medium c);
              ("creative_id", JNum (Creative.id cr));
              ("creative_name", Creative.name cr);
              ("creative_format", Creative.format cr);
              ("creative_url", Creative.url cr);
              ("performance_score", Creative.performance_score cr);
              ("is_primary", Creative.is_primary cr);
              ("impressions", Creative.impressions cr);
              ("clicks", Creative.clicks cr);
              ("ctr", Creative.ctr cr);
              ("a_b_test_variant",
               match Creative.a_b_test_variant cr with
               | Some v => if truthy v then v else JNull
               | None => JNull
               end)].
Proof.
  intros Hdata _ Hrows row.
  assert (Hne : drop_null (map numeric_id l) <> []).
  { intros Hnil.
    destruct (post_creative_data_none_numeric st l Hnil) as (e & m & He).
    rewrite He in Hrows; discriminate. }
  rewrite (post_creative_data_numeric st data l Hdata Hne) in Hrows.
  assert (Heq : rows = map (fun p => creative_row (fst p) (snd p))
                         (matched data (drop_null (map numeric_id l)))).
  { destruct (matched data _) as [|p ps]; [discriminate|].
    cbn in Hrows; injection Hrows as <-; reflexivity. }
  rewrite Heq, in_map_iff; split.
  - intros ([c cr] & <- & Hin).
    apply matched_In in Hin as [Hown Hid]; cbn [fst snd] in *.
    apply owned_In in Hown as (Hc & crs & Hcrs & Hcr).
    apply In_drop_null in Hid as (id & Hin & Hid).
    exists c, crs, cr, id; repeat split; auto.
  - intros (c & crs & cr & id & Hc & Hcrs & Hcr & Hin & Hid & ->).
    exists (c, cr); split; [reflexivity|].
    apply matched_In; split; [apply owned_In | apply In_drop_null]; eauto.
Qed.

Lemma creative_data_rows_witness :
  exists rows,
    response_field "data"
      (post_creative_data Sample.files
         (Some (JArr [JStr "102"; JNum 5; JNum 101])))
    = Some (JArr rows) /\
    In (JObj [("campaign_id", JNum 1);
              ("campaign_name", JStr "Ramadan Collection");
              ("campaign_status", JStr "Active");
              ("campaign_medium", JStr "Instagram");
              ("creative_id", JNum 102);
              ("creative_name", JStr "Story video");
              ("creative_format", JStr "Video");
              ("creative_url", JStr "https://example.com/102.mp4");
              ("performance_score", JNum 7);
              ("is_primary", JBool false);
              ("impressions", JNum 30000);
              ("clicks", JNum 900);
              ("ctr", JNum 3);
              ("a_b_test_variant", JNull)])
       rows.
Proof.
  eexists; split; [reflexivity|].
  apply (creative_data_rows Sample.files Sample.marketing
           [JStr "102"; JNum 5; JNum 101] _ eq_refl);
    [safe_entries | reflexivity |].
  exists Sample.campaign1, [Sample.creative101; Sample.creative102],
         Sample.creative102, (JStr "102").
  split; [simpl; auto|]; split; [reflexivity|]; split; [simpl; auto|].
  split; [simpl; auto|]; split; reflexivity.
Defined.

(** ** The handlers without a [catch] *)








(** ** The credential endpoints, further *)

Lemma simple_is_credential_answer (st : store)
    (username password : option string) :
  get_simple_protected_data st username password
  = credential_answer (users_json st)
      (fun user password => String.eqb (User.password user) password)
      "/simple-protected-data?username=ahmed_hassan&password=ahmedadmin123"
      st username password.
Proof.
  unfold get_simple_protected_data, credential_answer, find_user,
    role_decision.
  destruct username as [[|a u]|], password as [[|b p]|]; try reflexivity.
  destruct (users_json st) as [usersData|]; [|reflexivity].
  destruct (find _ _) as [user|]; [|reflexivity].
  destruct (String.eqb (User.password user) _); [|reflexivity].
  cbn [negb].
  destruct (String.eqb (User.role user) "admin");
    [destruct (marketing_data_json st)|]; reflexivity.
Qed.

Lemma encrypted_is_credential_answer (simpleDecrypt : string -> string)
    (st : store) (username password : option string) :
  get_encrypted_protected_data simpleDecrypt st username password
  = credential_answer (encrypted_users_json st)
      (fun user password =>
         String.eqb (simpleDecrypt (User.password user))
                    (simpleDecrypt password))
      "/protected-data?username=ahmed_hassan&password=hotlkhktpu123"
      st username password.
Proof.
  unfold get_encrypted_protected_data, credential_answer, find_user,
    role_decision.
  destruct username as [[|a u]|], password as [[|b p]|]; try reflexivity.
  destruct (encrypted_users_json st) as [usersData|]; [|reflexivity].
  destruct (find _ _) as [user|]; [|reflexivity].
  cbv zeta.
  destruct (String.eqb (simpleDecrypt (User.password user)) _);
    [|reflexivity].
  cbn [negb].
  destruct (String.eqb (User.role user) "admin");
    [destruct (marketing_data_json st)|]; reflexivity.
Qed.

Section CredentialAnswer.

Variable users : option UsersData.t.
Variable accepts : User.t -> string -> bool.
Variable example : string.
Variable st : store.

Lemma role_decision_responds (user : User.t) :
  exists status body,
    role_decision st user = Respond status body /\
    In status credential_statuses.
Proof.
  unfold role_decision, internal_error, credential_statuses.
  destruct (String.eqb _ "admin");
    [destruct (marketing_data_json st) | destruct (String.eqb _ "user")];
    do 2 eexists; (split; [reflexivity | simpl; auto 10]).
Qed.

Lemma credential_answer_responds (username password : option string) :
  exists status body,
    credential_answer users accepts example st username password
    = Respond status body /\
    In status credential_statuses.
Proof.
  unfold credential_answer, internal_error, credential_statuses.
  destruct username as [[|a u]|], password as [[|b p]|];
    try (do 2 eexists; split; [reflexivity | simpl; auto 10]).
  destruct users as [usersData|];
    [|do 2 eexists; split; [reflexivity | simpl; auto 10]].
  destruct (find_user _ _) as [user|];
    [|do 2 eexists; split; [reflexivity | simpl; auto 10]].
  destruct (accepts user _);
    [apply role_decision_responds
    |do 2 eexists; split; [reflexivity | simpl; auto 10]].
Qed.

Lemma credential_answer_missing (username password : option string) :
  status_of (credential_answer users accepts example st username password)
  = Some 400 <->
  supplied username = false \/ supplied password = false.
Proof.
  destruct (credential_answer_responds username password)
    as (status & body & Hresp & Hstatus).
  revert Hresp; unfold credential_answer.
  destruct username as [[|a u]|], password as [[|b p]|]; cbn [supplied];
    try (intros _; split; [auto | reflexivity]).
  intros Hresp; split; [|intros [H|H]; discriminate].
  destruct users as [usersData|]; [|discriminate].
  destruct (find_user _ _) as [user|]; [|discriminate].
  destruct (accepts user _); [|discriminate].
  unfold role_decision, internal_error.
  destruct (String.eqb _ "admin");
    [destruct (marketing_data_json st) | destruct (String.eqb _ "user")];
    discriminate.
Qed.

Ltac table_case :=
  split; intros;
  repeat match goal with
         | H : exists _, _ |- _ => destruct H
         | H : _ /\ _ |- _ => destruct H
         | H : _ \/ _ |- _ => destruct H
         end;
  try discriminate; try reflexivity; try congruence;
  try solve [eauto 10].

Ltac table_all := split; [|split; [|split; [|split]]]; table_case.

Lemma credential_answer_table (a b : ascii) (u p : string) :
  decision_table users (fun user => accepts user (String b p)) st
    (String a u)
    (credential_answer users accepts example st (Some (String a u))
       (Some (String b p))).
Proof.
  unfold decision_table, credential_answer, internal_error.
  destruct users as [usersData|]; [|table_all].
  destruct (find_user (String a u) usersData) as [user|] eqn:Hfind;
    [|table_all].
  destruct (accepts user (String b p)) eqn:Hok;
    [|table_all].
  unfold role_decision, internal_error.
  destruct (String.eqb_spec (User.role user) "admin") as [Hadmin|Hadmin].
  - destruct (marketing_data_json st) as [marketingData|] eqn:Hdata;
      table_all.
  - destruct (String.eqb (User.role user) "user");
      table_all.
Qed.

End CredentialAnswer.

Lemma credential_answer_data (users : option UsersData.t)
    (accepts : User.t -> string -> bool) (example : string) (st : store)
    (username password : option string) (d : json) :
  response_field "data"
    (credential_answer users accepts example st username password)
  = Some d ->
  status_of (credential_answer users accepts example st username password)
  = Some 200 /\
  exists marketingData,
    marketing_data_json st = Some marketingData /\
    d = MarketingData.to_json marketingData.
Proof.
  unfold credential_answer, internal_error.
  destruct username as [[|a u]|], password as [[|b p]|]; try discriminate.
  destruct users as [usersData|]; [|discriminate].
  destruct (find_user _ _) as [user|]; [|discriminate].
  destruct (accepts user _); [|discriminate].
  unfold role_decision, internal_error.
  destruct (String.eqb _ "admin").
  - destruct (marketing_data_json st) as [marketingData|]; [|discriminate].
    intros [= <-]; eauto.
  - destruct (String.eqb _ "user"); discriminate.
Qed.

Lemma credential_answer_user (users : option UsersData.t)
    (accepts : User.t -> string -> bool) (example : string) (st : store)
    (username password : option string) (v : json) :
  response_field "user"
    (credential_answer users accepts example st username password)
  = Some v ->
  exists name usersData user,
    username = Some name /\ users = Some usersData /\
    find_user name usersData = Some user /\
    v = user_summary user.
Proof.
  unfold credential_answer, internal_error.
  destruct username as [[|a u]|], password as [[|b p]|]; try discriminate.
  destruct users as [usersData|]; [|discriminate].
  destruct (find_user _ _) as [user|] eqn:Hfind; [|discriminate].
  destruct (accepts user _); [|discriminate].
  unfold role_decision, internal_error.
  destruct (String.eqb _ "admin");
    [destruct (marketing_data_json st) | destruct (String.eqb _ "user")];
    try discriminate; intros [= <-]; eauto 10.
Qed.

(** X13.  Both credential handlers always answer: no exception leaves them,
    and the status is one of 200, 400, 401, 403, 404 and 500. *)
Theorem credential_always_answered (simpleDecrypt : string -> string)
    (st : store) (username password : option string) :
  (exists status body,
      get_simple_protected_data st username password = Respond status body /\
      In status credential_statuses) /\
  (exists status body,
      get_encrypted_protected_data simpleDecrypt st username password
      = Respond status body /\
      In status credential_statuses).
Proof.
  rewrite simple_is_credential_answer,
          (encrypted_is_credential_answer simpleDecrypt).
  split; apply credential_answer_responds.
Qed.

(** X14.  Both credential handlers answer 400 exactly when the username or the
    password is missing or empty, whatever the files hold. *)
Theorem credential_missing (simpleDecrypt : string -> string) (st : store)
    (username password : option string) :
  (status_of (get_simple_protected_data st username password) = Some 400 <->
   supplied username = false \/ supplied password = false) /\
  (status_of (get_encrypted_protected_data simpleDecrypt st username password)
   = Some 400 <->
   supplied username = false \/ supplied password = false).
Proof.
  rewrite simple_is_credential_answer,
          (encrypted_is_credential_answer simpleDecrypt).
  split; apply credential_answer_missing.
Qed.

Lemma credential_missing_witness :
  status_of (get_simple_protected_data (mkStore None None None)
               (Some "ahmed_hassan") (Some "")) = Some 400.
Proof.
  apply (proj1 (credential_missing Sample.decoder (mkStore None None None)
                  (Some "ahmed_hassan") (Some ""))).
  right; reflexivity.
Defined.

(** X15.  With both credentials supplied, the status of either credential
    handler says what happened: 404 that the user file has no such
    username; 401 that the user was found and the password test failed;
    403 that the test passed and the role is not [admin]; 200 that the
    test passed, the role is [admin] and the campaigns file was read; 500
    that the user file could not be read, or that the campaigns file
    could not be read for an accepted [admin]. *)
Theorem credential_decision_table (simpleDecrypt : string -> string)
    (st : store) (username password : string) :
  username <> "" -> password <> "" ->
  decision_table (users_json st)
    (fun user => String.eqb (User.password user) password) st username
    (get_simple_protected_data st (Some username) (Some password)) /\
  decision_table (encrypted_users_json st)
    (fun user =>
       String.eqb (simpleDecrypt (User.password user))
                  (simpleDecrypt password))
    st username
    (get_encrypted_protected_data simpleDecrypt st (Some username)
       (Some password)).
Proof.
  intros Hu Hp.
  destruct username as [|a u]; [contradiction|].
  destruct password as [|b p]; [contradiction|].
  rewrite simple_is_credential_answer,
          (encrypted_is_credential_answer simpleDecrypt).
  split.
  - apply (credential_answer_table (users_json st)
             (fun user password => String.eqb (User.password user) password)).
  - apply (credential_answer_table (encrypted_users_json st)
             (fun user password =>
                String.eqb (simpleDecrypt (User.password user))
                           (simpleDecrypt password))).
Qed.

Lemma credential_decision_table_witness :
  status_of (get_encrypted_protected_data Sample.decoder
               (mkStore None None (encrypted_users_json Sample.files))
               (Some "ahmed_hassan") (Some "hotlkhktpu123")) = Some 500.
Proof.
  assert (Hne : forall a s, String a s <> "") by discriminate.
  destruct (credential_decision_table Sample.decoder
              (mkStore None None (encrypted_users_json Sample.files))
              "ahmed_hassan" "hotlkhktpu123" (Hne _ _) (Hne _ _))
    as (_ & _ & _ & _ & _ & H500).
  apply H500; right.
  exists (UsersData.mk [Sample.ahmed_enc; Sample.omar_enc; Sample.layla_enc]),
         Sample.ahmed_enc.
  repeat split.
Defined.

(** X16.  Neither credential handler lets the campaigns out unasked: a body
    with a [data] field is a 200 answer, and the field holds the campaigns
    document as read. *)
Theorem credential_data_only_granted (simpleDecrypt : string -> string)
    (st : store) (username password : option string) (d : json) :
  (response_field "data" (get_simple_protected_data st username password)
   = Some d ->
   status_of (get_simple_protected_data st username password) = Some 200 /\
   exists marketingData,
     marketing_data_json st = Some marketingData /\
     d = MarketingData.to_json marketingData) /\
  (response_field "data"
     (get_encrypted_protected_data simpleDecrypt st username password)
   = Some d ->
   status_of (get_encrypted_protected_data simpleDecrypt st username password)
   = Some 200 /\
   exists marketingData,
     marketing_data_json st = Some marketingData /\
     d = MarketingData.to_json marketingData).
Proof.
  rewrite simple_is_credential_answer,
          (encrypted_is_credential_answer simpleDecrypt).
  split; apply credential_answer_data.
Qed.

Lemma credential_data_only_granted_witness :
  status_of (get_simple_protected_data Sample.files (Some "ahmed_hassan")
               (Some "ahmedadmin123")) = Some 200.
Proof.
  apply (proj1 (credential_data_only_granted Sample.decoder Sample.files
                  (Some "ahmed_hassan") (Some "ahmedadmin123")
                  (MarketingData.to_json Sample.marketing)) eq_refl).
Defined.

(** X17.  Whenever the body of a credential handler has a [user] field,
    the supplied username is that of a user of the file, and the field
    is an object with exactly the fields [id], [username], [email] and
    [role], holding those properties of the first user of that name: the
    stored password is not a field of it. *)
Theorem credential_user_summary (simpleDecrypt : string -> string)
    (st : store) (username password : option string) (v : json) :
  (response_field "user" (get_simple_protected_data st username password)
   = Some v ->
   exists name usersData user,
     username = Some name /\ users_json st = Some usersData /\
     find_user name usersData = Some user /\
     v = JObj [("id", JNum (User.id user));
               ("username", JStr (User.username user));
               ("email", User.email user);
               ("role", JStr (User.role user))]) /\
  (response_field "user"
     (get_encrypted_protected_data simpleDecrypt st username password)
   = Some v ->
   exists name usersData user,
     username = Some name /\ encrypted_users_json st = Some usersData /\
     find_user name usersData = Some user /\
     v = JObj [("id", JNum (User.id user));
               ("username", JStr (User.username user));
               ("email", User.email user);
               ("role", JStr (User.role user))]).
Proof.
  rewrite simple_is_credential_answer,
          (encrypted_is_credential_answer simpleDecrypt).
  split; intros H;
    destruct (credential_answer_user _ _ _ _ _ _ _ H)
      as (name & usersData & user & Hn & Hu & Hf & ->);
    exists name, usersData, user; repeat split; assumption.
Qed.

Lemma credential_user_summary_witness :
  exists name usersData user,
    Some "omar_mahmoud" = Some name /\
    users_json Sample.files = Some usersData /\
    find_user name usersData = Some user /\
    JObj [("id", JNum 2); ("username", JStr "omar_mahmoud");
          ("email", JStr "omar@example.com"); ("role", JStr "user")]
    = JObj [("id", JNum (User.id user));
            ("username", JStr (User.username user));
            ("email", User.email user);
            ("role", JStr (User.role user))].
Proof.
  exact (proj1 (credential_user_summary Sample.decoder Sample.files
                  (Some "omar_mahmoud") (Some "omar789pass")
                  (JObj [("id", JNum 2); ("username", JStr "omar_mahmoud");
                         ("email", JStr "omar@example.com");
                         ("role", JStr "user")]))
               eq_refl).
Defined.

(** X18.  When decoding loses nothing (no two strings decode alike), the
    encrypted handler is the plain-text handler on the obfuscated file:
    the supplied password is compared, in effect, with the stored
    obfuscated string. *)
Theorem encrypted_is_plain_when_injective (simpleDecrypt : string -> string)
    (st : store) (username password : string) :
  (forall a b, simpleDecrypt a = simpleDecrypt b -> a = b) ->
  username <> "" -> password <> "" ->
  get_encrypted_protected_data simpleDecrypt st (Some username)
    (Some password)
  = get_simple_protected_data (obfuscated_as_plain st) (Some username)
      (Some password).
Proof.
  intros Hinj Hu Hp.
  rewrite simple_is_credential_answer,
          (encrypted_is_credential_answer simpleDecrypt).
  destruct username as [|a u]; [contradiction|].
  destruct password as [|b p]; [contradiction|].
  unfold credential_answer, obfuscated_as_plain; cbn [users_json].
  destruct (encrypted_users_json st) as [usersData|]; [|reflexivity].
  destruct (find_user _ _) as [user|]; [|reflexivity].
  replace (String.eqb (simpleDecrypt (User.password user))
                      (simpleDecrypt (String b p)))
    with (String.eqb (User.password user) (String b p)).
  - destruct (String.eqb _ _); reflexivity.
  - destruct (String.eqb_spec (User.password user) (String b p)) as [->|Hne].
    + symmetry; apply String.eqb_refl.
    + symmetry; apply String.eqb_neq; intros H; apply Hne, Hinj, H.
Qed.

Lemma encrypted_is_plain_when_injective_witness :
  get_encrypted_protected_data (fun s => String "k" s) Sample.files
    (Some "omar_mahmoud") (Some "vthy789whzz")
  = get_simple_protected_data (obfuscated_as_plain Sample.files)
      (Some "omar_mahmoud") (Some "vthy789whzz").
Proof.
  apply encrypted_is_plain_when_injective; try discriminate.
  intros a b H; now injection H.
Defined.

Lemma campaign_data_numeral_witness :
  exists campaign,
    get_campaign_data Sample.files (Some (toString 3))
    = Respond 200 (Campaign.to_json campaign) /\
    Campaign.id campaign = 3 /\
    field "id" (Campaign.to_json campaign) = Some (JNum 3).
Proof.
  apply (campaign_data_numeral Sample.files Sample.marketing Sample.campaign3
           eq_refl).
  - simpl; auto.
  - apply safe_small; cbn; lia.
Defined.
